(** * PDF title extractor and renamer: a shallow embedding of
    [pdf_title_renamer.py] and the properties of its title pipeline,
    candidate scorer, file-name sanitizer, duplicate-name counter, keyword
    and year extraction, and of the walk that renames the files of a folder.

    Python strings are sequences of Unicode code points; they are modelled
    as lists of code points ([N]).  [len] is [length], a slice [s[:n]] is
    [take n s].  The functions keep the names they have in the source.

    What the program asks of PyPDF2 and pdfplumber is an input: a document
    is the outcome of each call the program makes on the file.  Logging
    changes no result and is left out (the logger is the one the script
    configures when it is run). *)

From stdpp Require Import gmap strings list pretty.
From Stdlib Require Import NArith ZArith Lia.
From Stdlib Require QArith.

Local Open Scope N_scope.

Abbreviation char := N (only parsing).
Abbreviation str := (list N) (only parsing).

(** A literal of the source, written as a Rocq string of ASCII characters. *)
Fixpoint py (s : string) : str :=
  match s with
  | EmptyString => []
  | String a s' => Ascii.N_of_ascii a :: py s'
  end.

(** ** The Python runtime: character classes *)

(** [str.isspace] on one character.  [str.strip()], [str.split()] and the
    regular-expression class [\s] all use this one predicate
    (CPython's [_PyUnicode_IsWhitespace]). *)
Definition isspace (c : char) : bool :=
  ((9 <=? c) && (c <=? 13)) || ((28 <=? c) && (c <=? 32))
  || (c =? 133) || (c =? 160) || (c =? 5760)
  || ((8192 <=? c) && (c <=? 8202))
  || (c =? 8232) || (c =? 8233) || (c =? 8239) || (c =? 8287) || (c =? 12288).

(** The case mappings and digit classes of the Unicode database are large
    tables; the program only calls them, so they are an interface here.
    [str_lower] is [str.lower()] on a whole string (the lower-casing of a
    capital sigma depends on its neighbours, so it is not a map over
    characters); [re_ieq p c] says that the text character [c] matches the
    pattern literal [p] under [re.IGNORECASE]. *)
Class PyUnicode := {
  uni_isupper : char → bool;       (* c.isupper() *)
  uni_isdigit : char → bool;       (* str.isdigit(), per character *)
  uni_isdecimal : char → bool;     (* the class \d of re *)
  str_lower : str → str;           (* s.lower() *)
  re_ieq : char → char → bool;
  str_lower_nil : str_lower [] = []
}.

(** The tables restricted to Latin-1: exact on every text whose code points
    are below 256; larger code points are caseless and not digits. *)
Module Latin1.
Definition isupper (c : char) : bool :=
  ((65 <=? c) && (c <=? 90)) || ((192 <=? c) && (c <=? 214))
  || ((216 <=? c) && (c <=? 222)).
Definition lower1 (c : char) : char := if isupper c then c + 32 else c.
Definition isdecimal (c : char) : bool := (48 <=? c) && (c <=? 57).
Definition isdigit (c : char) : bool :=
  isdecimal c || (c =? 178) || (c =? 179) || (c =? 185).
Definition ieq (p c : char) : bool := lower1 p =? lower1 c.
End Latin1.

#[export] Instance latin1_unicode : PyUnicode := {|
  uni_isupper := Latin1.isupper;
  uni_isdigit := Latin1.isdigit;
  uni_isdecimal := Latin1.isdecimal;
  str_lower := map Latin1.lower1;
  re_ieq := Latin1.ieq;
  str_lower_nil := eq_refl
|}.

(** ** The Python runtime: string methods *)

Definition nonempty {A} (l : list A) : bool :=
  match l with [] => false | _ => true end.

Fixpoint lstrip_by (f : char → bool) (s : str) : str :=
  match s with
  | [] => []
  | c :: s' => if f c then lstrip_by f s' else s
  end.

Fixpoint rstrip_by (f : char → bool) (s : str) : str :=
  match s with
  | [] => []
  | c :: s' => if forallb f s then [] else c :: rstrip_by f s'
  end.

(** [s.strip()] and [s.strip('_')]. *)
Definition strip (s : str) : str := rstrip_by isspace (lstrip_by isspace s).
Definition strip_chars (cs : str) (s : str) : str :=
  let f c := bool_decide (c ∈ cs) in rstrip_by f (lstrip_by f s).

(** [s.split(sep)] for a one-character separator: the pieces between the
    separators, empty pieces included; never the empty list. *)
Fixpoint split_on (sep : char) (s : str) : list str :=
  match s with
  | [] => [[]]
  | c :: s' =>
      if c =? sep then [] :: split_on sep s'
      else match split_on sep s' with
           | [] => [[c]]
           | w :: ws => (c :: w) :: ws
           end
  end.

(** [s.split()]: the maximal runs of non-whitespace characters. *)
Fixpoint split_ws_aux (cur : str) (s : str) : list str :=
  match s with
  | [] => if nonempty cur then [cur] else []
  | c :: s' =>
      if isspace c
      then (if nonempty cur then cur :: split_ws_aux [] s' else split_ws_aux [] s')
      else split_ws_aux (cur ++ [c]) s'
  end.
Definition split_ws (s : str) : list str := split_ws_aux [] s.

(** [s.replace(c, rep)] for a one-character [c]. *)
Definition replace (c : char) (rep : str) (s : str) : str :=
  flat_map (λ x, if x =? c then rep else [x]) s.

Fixpoint starts_with (p s : str) : bool :=
  match p, s with
  | [], _ => true
  | _ :: _, [] => false
  | a :: p', b :: s' => (a =? b) && starts_with p' s'
  end.

(** [p in s] on strings: [p] occurs as a substring of [s]. *)
Fixpoint contains (p s : str) : bool :=
  starts_with p s || match s with [] => false | _ :: s' => contains p s' end.

(** [s.isdigit()]. *)
Definition isdigit `{PyUnicode} (s : str) : bool :=
  nonempty s && forallb uni_isdigit s.

Definition dot : char := 46.
Definition space : char := 32.
Definition newline : char := 10.
Definition underscore : char := 95.
Definition slash : char := 47.
Definition backslash : char := 92.

(** ** Regular expressions of the source *)

(** [re.sub(r'\s+', ' ', s)]: every maximal run of whitespace becomes one
    space; the space is written when the run ends. *)
Fixpoint collapse_ws (s : str) : str :=
  match s with
  | [] => []
  | c :: s' =>
      if isspace c
      then match s' with
           | d :: _ => if isspace d then collapse_ws s' else space :: collapse_ws s'
           | [] => [space]
           end
      else c :: collapse_ws s'
  end.

(** Does [s] read [\s*\.] from its start? *)
Fixpoint ws_then_dot (s : str) : bool :=
  match s with
  | [] => false
  | c :: s' => if c =? dot then true else if isspace c then ws_then_dot s' else false
  end.

(** [re.sub(r'\s*\.\s*', '.', s)]: a period swallows the whitespace on both
    of its sides.  [after_dot] holds while the scan is inside the trailing
    [\s*] of a match; a whitespace character outside a match is dropped
    exactly when its run leads to a period. *)
Fixpoint sub_dots_aux (after_dot : bool) (s : str) : str :=
  match s with
  | [] => []
  | c :: s' =>
      if c =? dot then dot :: sub_dots_aux true s'
      else if isspace c
           then (if after_dot || ws_then_dot s'
                 then sub_dots_aux after_dot s'
                 else c :: sub_dots_aux false s')
           else c :: sub_dots_aux false s'
  end.
Definition sub_dots (s : str) : str := sub_dots_aux false s.

(** ** Config *)

Module Config.
(** [ILLEGAL_CHARS], in the order of the dictionary literal. *)
Definition ILLEGAL_CHARS : list (char * str) :=
  [ (60, py "("); (62, py ")"); (58, py " -"); (34, []); (47, py "-");
    (92, py "-"); (124, py "-"); (63, []); (42, []) ].
Definition MAX_TITLE_LENGTH : nat := 150.
Definition MAX_PAGES_TO_CHECK : nat := 3.
Definition TITLE_KEYWORDS : list str :=
  map py [ "research"; "study"; "investigation"; "analysis"; "method";
           "approach"; "algorithm"; "model"; "system"; "framework";
           "technique"; "solution"; "theory"; "design"; "implementation";
           "evaluation"; "comparison" ]%string.
Definition INSTITUTION_KEYWORDS : list str :=
  map py [ "university"; "institute"; "lab"; "laboratory"; "school";
           "college"; "department"; "center"; "faculty"; "academy";
           "research"; "institute of"; "university of"; "dept.";
           "school of"; "college of" ]%string.
End Config.

(** The label "未命名" of [sanitize_filename] and the label "未知标题" of
    [generate_paper_filename], as code points. *)
Definition UNNAMED : str := [26410; 21629; 21517].
Definition UNKNOWN_TITLE : str := [26410; 30693; 26631; 39064].

(** ** sanitize_filename *)

Definition replace_illegal (s : str) : str :=
  fold_left (λ acc p, replace p.1 p.2 acc) Config.ILLEGAL_CHARS s.

(** The name before the length limit: lines 98-103 of the source. *)
Definition cleaned (filename : str) : str :=
  sub_dots (strip (collapse_ws (replace_illegal filename))).

Definition truncate (n : nat) (s : str) : str :=
  if bool_decide (n < length s)%nat then take n s else s.

Definition sanitize_filename (filename : str) : str :=
  if negb (nonempty filename) then UNNAMED
  else
    let filename := truncate Config.MAX_TITLE_LENGTH (cleaned filename) in
    if negb (nonempty filename) || bool_decide (filename = [dot]) then UNNAMED
    else filename.

(** ** validate_title and extract_institution *)

Section Titles.
Context `{PyUnicode}.

Definition has_keyword (kws : list str) (lowered : str) : bool :=
  existsb (λ keyword, contains (str_lower keyword) lowered) kws.

Definition validate_title (title : str) : bool :=
  if negb (nonempty title) || (length (strip title) <? 5)%nat then false
  else if has_keyword Config.TITLE_KEYWORDS (str_lower title) then true
  else (3 <=? length (split_ws title))%nat && (15 <? length title)%nat.

Definition extract_institution (text : str) : option str :=
  if negb (nonempty text) then None
  else
    match List.find (λ line, has_keyword Config.INSTITUTION_KEYWORDS
                                 (strip (str_lower line)))
                    (split_on newline text) with
    | Some line => Some (take 100 (strip line))
    | None => None
    end.

(** ** extract_title_from_text: the candidate scorer *)

(** The pattern of line 303, searched with [re.IGNORECASE]:
    [\d{4}|vol\.|no\.|pp\.|et al|DOI|http|www|@|email|abstract|introduction]. *)
Definition NON_TITLE_LITERALS : list str :=
  map py [ "vol."; "no."; "pp."; "et al"; "DOI"; "http"; "www"; "@";
           "email"; "abstract"; "introduction" ]%string.

Fixpoint re_literal_at (p s : str) : bool :=
  match p, s with
  | [], _ => true
  | _ :: _, [] => false
  | a :: p', b :: s' => re_ieq a b && re_literal_at p' s'
  end.

Definition re_digits4_at (s : str) : bool :=
  match s with
  | a :: b :: c :: d :: _ =>
      uni_isdecimal a && uni_isdecimal b && uni_isdecimal c && uni_isdecimal d
  | _ => false
  end.

Definition non_title_at (s : str) : bool :=
  re_digits4_at s || existsb (λ p, re_literal_at p s) NON_TITLE_LITERALS.

(** [re.search(pattern, line, re.IGNORECASE)] finds a match. *)
Fixpoint non_title_marker (line : str) : bool :=
  non_title_at line
  || match line with [] => false | _ :: s' => non_title_marker s' end.

(** Lines 293-294. *)
Definition meaningful_lines (text : str) : list str :=
  List.filter (λ l, nonempty l && (3 <? length l)%nat)
              (map strip (split_on newline text)).

(** Line 309. *)
Definition prefilter (line : str) : bool :=
  (3 <=? length (split_ws line))%nat && (10 <? length line)%nat.

Definition uppercase_count (line : str) : nat :=
  length (List.filter uni_isupper line).

(** [0.2 < u / max(len, 1) < 0.8].  The quotient is a correctly rounded
    double and [0.2], [0.8] are the doubles nearest to 1/5 and 4/5; for a
    line of fewer than 2^50 characters the comparison agrees with the exact
    one, [m < 5u] and [5u < 4m]. *)
Definition ratio_in_range (line : str) : bool :=
  let u := uppercase_count line in
  let m := max (length line) 1 in
  ((m <? 5 * u) && (5 * u <? 4 * m))%nat.

(** Lines 311-326. *)
Definition score (line : str) : Z :=
  let words := split_ws line in
  let s0 := 0%Z in
  let s1 := if ((15 <? length line) && (length line <? 200))%nat
            then (s0 + 2)%Z else s0 in
  let s2 := if ((4 <? length words) && (length words <? 30))%nat
            then (s1 + 2)%Z else s1 in
  let s3 := if ratio_in_range line then (s2 + 1)%Z else s2 in
  if has_keyword Config.TITLE_KEYWORDS (str_lower line) then (s3 + 3)%Z else s3.

(** The loop of lines 301-328 over the first ten meaningful lines. *)
Fixpoint candidate_titles (lines : list str) : list (str * Z) :=
  match lines with
  | [] => []
  | line :: rest =>
      if non_title_marker line then candidate_titles rest
      else if prefilter line then (line, score line) :: candidate_titles rest
      else candidate_titles rest
  end.

(** [list.sort(key=lambda x: x[1], reverse=True)]: a stable sort, so
    entries of equal score keep their order. *)
Fixpoint insert_desc (x : str * Z) (l : list (str * Z)) : list (str * Z) :=
  match l with
  | [] => [x]
  | y :: l' => if (x.2 <? y.2)%Z then y :: insert_desc x l' else x :: l
  end.
Fixpoint sort_desc (l : list (str * Z)) : list (str * Z) :=
  match l with
  | [] => []
  | x :: l' => insert_desc x (sort_desc l')
  end.

(** Strategy 1 (lines 299-334), strategy 2 (337-339), strategy 3 (342). *)
Definition strategy1 (lines : list str) : option str :=
  match sort_desc (candidate_titles (take 10 lines)) with
  | (line, _) :: _ => Some line
  | [] => None
  end.

Definition strategy2 (lines : list str) : option str :=
  List.find (λ line, (15 <? length line)%nat && negb (isdigit line))
            (take 5 lines).

Definition extract_title_from_text (text : str) : option str :=
  if negb (nonempty text) then None
  else
    let lines := meaningful_lines text in
    if negb (nonempty lines) then None
    else
      match strategy1 lines with
      | Some line => Some line
      | None =>
          match strategy2 lines with
          | Some line => Some line
          | None => head lines
          end
      end.

End Titles.

(** ** The PDF libraries, as the program sees them *)

(** The exceptions the handlers tell apart; [exn_str] is [str(e)]. *)
Inductive exn :=
  | PdfReadError (msg : str)       (* PyPDF2.errors.PdfReadError *)
  | PDFSyntaxError (msg : str)     (* pdfminer's PDFSyntaxError, from pdfplumber *)
  | OtherError (msg : str).        (* any other Exception *)

Definition exn_str (e : exn) : str :=
  match e with PdfReadError m | PDFSyntaxError m | OtherError m => m end.

(** A [PyPDF2.PdfReader]: [decrypt_raises] says whether [reader.decrypt('')]
    raises (its return value is ignored by the program); [metadata] is the
    outcome of reading [reader.metadata]. *)
Record pdf_reader := {
  is_encrypted : bool;
  decrypt_raises : bool;
  metadata : exn + option (gmap string str)
}.

Inductive region := Full | Header | Content | Footer.

(** A pdfplumber page: the outcome of [extract_text()] on the page and on
    its three [within_bbox] crops ([None] when there is no text). *)
Record page := {
  page_text : region → exn + option str
}.

(** One PDF file: what opening it with each library gives. *)
Record document := {
  open_reader : exn + pdf_reader;     (* open(path,'rb'); PyPDF2.PdfReader(file) *)
  open_plumber : exn + list page      (* pdfplumber.open(path); pdf.pages *)
}.

(** ** Calls and exceptions *)

(** The calls a run makes, in order. *)
Inductive event :=
  | MetadataTier                       (* extract_title_from_metadata is entered *)
  | ContentTier                        (* extract_title_from_content is entered *)
  | OpenPlumber                        (* pdfplumber.open *)
  | ExtractText (i : nat) (r : region) (* extract_text on page i, region r *)
  | ScoreRegion (r : region)           (* extract_title_from_text on region r *)
  | LowConfidenceTier.                 (* the pooling of lines 261-273 *)

#[global] Instance region_eq_dec : EqDecision region.
Proof. solve_decision. Defined.
#[global] Instance event_eq_dec : EqDecision event.
Proof. solve_decision. Defined.

(** A computation that logs its calls and may raise. *)
Definition M (A : Type) : Type := ((exn + A) * list event)%type.

Definition ret {A} (a : A) : M A := (inr a, []).
Definition call {A} (ev : event) (outcome : exn + A) : M A := (outcome, [ev]).
Definition tell (ev : event) : M unit := (inr tt, [ev]).
Definition bind {A B} (m : M A) (k : A → M B) : M B :=
  match m with
  | (inl e, t) => (inl e, t)
  | (inr a, t) => let '(r, t') := k a in (r, t ++ t')
  end.

Notation "x ←' m ; k" := (bind m (λ x, k))
  (at level 100, m at next level, right associativity).

(** [try: m except ... as e: h e], for a handler that does not raise. *)
Definition try_except {A} (m : M A) (h : exn → A) : A * list event :=
  match m with
  | (inl e, t) => (h e, t)
  | (inr a, t) => (a, t)
  end.

Section Pipeline.
Context `{PyUnicode}.

(** ** extract_title_from_metadata *)

Definition title_fields : list string :=
  [ "/Title"; "/Subject"; "/Topic"; "/Keywords" ]%string.

Definition PLACEHOLDERS : list str :=
  map py [ ""; "untitled"; "unnamed"; "no title" ]%string.

(** The loop of lines 172-178. *)
Fixpoint scan_fields (m : gmap string str) (fields : list string) : option str :=
  match fields with
  | [] => None
  | field :: rest =>
      let title := default [] (m !! field) in
      if nonempty title && nonempty (strip title)
         && negb (bool_decide (str_lower (strip title) ∈ PLACEHOLDERS))
      then
        let cleaned_title := strip title in
        if validate_title cleaned_title || String.eqb field "/Title"
        then Some cleaned_title
        else scan_fields m rest
      else scan_fields m rest
  end.

Definition ENCRYPTED : str := py "encrypted".
Definition CORRUPTED : str := py "corrupted".
Definition METADATA : str := py "metadata".
Definition CONTENT : str := py "content".
Definition LOW_CONFIDENCE : str := py "low_confidence".
Definition NO_TITLE_FOUND : str := py "no_title_found".
Definition EXTRACTION_FAILED : str := py "extraction_failed".

(** The body of the [try] of lines 156-178: [inr] is a [return], [inl] an
    exception on its way to the handlers of lines 179-184. *)
Definition metadata_body (d : document) : exn + (option str * option str) :=
  match open_reader d with
  | inl e => inl e
  | inr reader =>
      if is_encrypted reader && decrypt_raises reader
      then inr (None, Some ENCRYPTED)
      else
        match metadata reader with
        | inl e => inl e
        | inr None => inr (None, None)
        | inr (Some m) =>
            match scan_fields m title_fields with
            | Some t => inr (Some t, None)
            | None => inr (None, None)
            end
        end
  end.

Definition extract_title_from_metadata (d : document)
  : (option str * option str) * list event :=
  try_except (call MetadataTier (metadata_body d))
    (λ e, match e with
          | PdfReadError _ => (None, Some CORRUPTED)
          | _ => (None, Some (exn_str e))
          end).

(** ** extract_title_from_content *)

Record region_texts := {
  rt_full : str; rt_header : str; rt_content : str; rt_footer : str
}.

Definition or_empty (o : option str) : str := default [] o.

(** One turn of the loop of lines 201-238. *)
Definition read_page (i : nat) (p : page) (acc : region_texts) : M region_texts :=
  f ←' call (ExtractText i Full) (page_text p Full);
  h ←' call (ExtractText i Header) (page_text p Header);
  c ←' call (ExtractText i Content) (page_text p Content);
  g ←' call (ExtractText i Footer) (page_text p Footer);
  ret {| rt_full := rt_full acc ++ or_empty f;
         rt_header := rt_header acc ++ or_empty h;
         rt_content := rt_content acc ++ or_empty c;
         rt_footer := rt_footer acc ++ or_empty g |}.

Fixpoint read_pages (i : nat) (ps : list page) (acc : region_texts) : M region_texts :=
  match ps with
  | [] => ret acc
  | p :: ps' => acc' ←' read_page i p acc; read_pages (S i) ps' acc'
  end.

(** [title = extract_title_from_text(...)] followed by
    [if title and validate_title(title)]. *)
Definition valid_candidate (text : str) : option str :=
  match extract_title_from_text text with
  | Some title => if nonempty title && validate_title title then Some title else None
  | None => None
  end.

(** [max(lines, key=len)]: the first line of the greatest length. *)
Fixpoint max_by_len_from (best : str) (lines : list str) : str :=
  match lines with
  | [] => best
  | x :: rest => max_by_len_from (if (length best <? length x)%nat then x else best) rest
  end.

(** Lines 261-267; [region_texts.values()] runs in the order of the
    dictionary literal: full, header, content, footer. *)
Definition pool_region (region_text : str) : list str :=
  if nonempty region_text
  then List.filter (λ l, nonempty l && (5 <? length l)%nat)
                   (map strip (split_on newline region_text))
  else [].

Definition all_lines (rt : region_texts) : list str :=
  pool_region (rt_full rt) ++ pool_region (rt_header rt)
  ++ pool_region (rt_content rt) ++ pool_region (rt_footer rt).

Definition candidate_lines (rt : region_texts) : list str :=
  List.filter (λ line, negb (isdigit line)) (take 10 (all_lines rt)).

(** Lines 261-273 and the fall-through to line 282. *)
Definition low_confidence (rt : region_texts) : option str * option str * option str :=
  if nonempty (all_lines rt)
  then
    match candidate_lines rt with
    | x :: rest =>
        (Some (max_by_len_from x rest), Some LOW_CONFIDENCE,
         extract_institution (rt_full rt))
    | [] => (None, Some NO_TITLE_FOUND, None)
    end
  else (None, Some NO_TITLE_FOUND, None).

(** Lines 241-273: content, full page, header, footer, then the pool. *)
Definition scan_regions (rt : region_texts) : M (option str * option str * option str) :=
  let found title := ret (Some title, None, extract_institution (rt_full rt)) in
  _ ←' tell (ScoreRegion Content);
  match valid_candidate (rt_content rt) with
  | Some title => found title
  | None =>
  _ ←' tell (ScoreRegion Full);
  match valid_candidate (rt_full rt) with
  | Some title => found title
  | None =>
  _ ←' tell (ScoreRegion Header);
  match valid_candidate (rt_header rt) with
  | Some title => found title
  | None =>
  _ ←' tell (ScoreRegion Footer);
  match valid_candidate (rt_footer rt) with
  | Some title => found title
  | None =>
  _ ←' tell LowConfidenceTier;
  ret (low_confidence rt)
  end end end end.

Definition empty_texts : region_texts :=
  {| rt_full := []; rt_header := []; rt_content := []; rt_footer := [] |}.

Definition content_body (d : document) : M (option str * option str * option str) :=
  _ ←' tell ContentTier;
  pages ←' call OpenPlumber (open_plumber d);
  rt ←' read_pages 0 (take (min Config.MAX_PAGES_TO_CHECK (length pages)) pages) empty_texts;
  scan_regions rt.

(** [str(e)] of the [AttributeError] that the lookup of
    [pdfplumber.openers] raises. *)
Definition NO_OPENERS : str := py "module 'pdfplumber' has no attribute 'openers'".

(** Lines 189-282.  An exception of the body is matched against the
    clause of line 275 first, [except pdfplumber.openers.PDFSyntaxError]:
    pdfplumber has no attribute [openers] (the class is pdfminer's), so
    evaluating the clause raises [AttributeError], and that exception
    leaves the function; the handlers of lines 276-280 are never run. *)
Definition extract_title_from_content (d : document)
  : M (option str * option str * option str) :=
  match content_body d with
  | (inl _, t) => (inl (OtherError NO_OPENERS), t)
  | (inr r, t) => (inr r, t)
  end.

(** ** extract_title *)

(** Lines 361-369: the institution of the first page; any exception is
    swallowed. *)
Definition first_page_institution (d : document) : option str * list event :=
  try_except
    (pages ←' call OpenPlumber (open_plumber d);
     match pages with
     | p :: _ =>
         t ←' call (ExtractText 0 Full) (page_text p Full);
         ret (extract_institution (or_empty t))
     | [] => ret None
     end)
    (λ _, None).

(** Python's truth value of an optional string. *)
Definition truthy (o : option str) : bool :=
  match o with Some s => nonempty s | None => false end.

(** Lines 344-382.  The call of the content tier on line 372 is not in a
    [try]: what that tier raises, [extract_title] raises. *)
Definition extract_title (d : document) : M (option str * str * option str) :=
  let '((metadata_title, metadata_status), t1) := extract_title_from_metadata d in
  if bool_decide (metadata_status = Some ENCRYPTED) then (inr (None, ENCRYPTED, None), t1)
  else if bool_decide (metadata_status = Some CORRUPTED) then (inr (None, CORRUPTED, None), t1)
  else if truthy metadata_title then
    let '(institution, t2) := first_page_institution d in
    (inr (metadata_title, METADATA, institution), t1 ++ t2)
  else
    match extract_title_from_content d with
    | (inl e, t2) => (inl e, t1 ++ t2)
    | (inr (content_title, content_status, institution), t2) =>
        if truthy content_title then
          (inr (content_title,
                (if truthy content_status then default [] content_status else CONTENT),
                institution), t1 ++ t2)
        else (inr (None, EXTRACTION_FAILED, None), t1 ++ t2)
    end.

End Pipeline.

(** ** generate_paper_filename *)

Definition PDF_EXT : str := py ".pdf".

(** Lines 454-480; [PAPER_NAMING_FORMAT] is ["{title}"], so the formatted
    name is the cleaned title itself. *)
Definition generate_paper_filename (title : option str) : str :=
  let title :=
    match title with
    | Some t => if negb (nonempty t) || negb (nonempty (strip t)) then UNKNOWN_TITLE else t
    | None => UNKNOWN_TITLE
    end in
  let cleaned_title := sanitize_filename (strip title) in
  let filename := cleaned_title in
  let max_length := (Config.MAX_TITLE_LENGTH - 4)%nat in
  let filename :=
    if (max_length <? length filename)%nat then take max_length cleaned_title
    else filename in
  strip_chars [underscore] filename ++ PDF_EXT.

(** The part of a generated name before its [.pdf]. *)
Definition base_name (title : option str) : str :=
  let n := generate_paper_filename title in take (length n - 4) n.

(** ** os.path.splitext *)

(** [p.rfind(c)]: the last index of [c], or -1. *)
Fixpoint rfind_from (i : Z) (c : char) (p : str) (found : Z) : Z :=
  match p with
  | [] => found
  | x :: p' => rfind_from (i + 1) c p' (if x =? c then i else found)
  end.
Definition rfind (c : char) (p : str) : Z := rfind_from 0 c p (-1).

(** [p[a:b]] for [0 <= a]. *)
Definition slice (p : str) (a b : Z) : str :=
  take (Z.to_nat (b - a)) (drop (Z.to_nat a) p).

(** [genericpath._splitext(p, sep, altsep, '.')] of the standard library:
    the extension starts at the last period of the last path component,
    unless that component has only periods before it. *)
Definition _splitext (p : str) (sep : char) (altsep : option char) : str * str :=
  let sepIndex :=
    match altsep with
    | Some a => Z.max (rfind sep p) (rfind a p)
    | None => rfind sep p
    end in
  let dotIndex := rfind dot p in
  if (sepIndex <? dotIndex)%Z
     && existsb (λ x, negb (x =? dot)) (slice p (sepIndex + 1) dotIndex)
  then (take (Z.to_nat dotIndex) p, drop (Z.to_nat dotIndex) p)
  else (p, []).

Inductive os := Posix | Windows.

Definition splitext (o : os) (p : str) : str * str :=
  match o with
  | Posix => _splitext p slash None
  | Windows => _splitext p backslash (Some slash)
  end.

(** ** rename_pdfs: the global count of generated names *)

(** [f"{n}"] for an integer. *)
Definition fmt_int (n : Z) : str := py (pretty n).

(** Lines 635-639, on the table [global_title_counts] (a
    [defaultdict(int)]): the new table and the name kept for the file. *)
Definition count_title (o : os) (counts : gmap str Z) (new_filename : str)
  : gmap str Z * str :=
  let n := (default 0 (counts !! new_filename) + 1)%Z in
  let counts := <[new_filename := n]> counts in
  if (1 <? n)%Z then
    let '(base_name, ext) := splitext o new_filename in
    (counts, base_name ++ [underscore] ++ fmt_int (n - 1) ++ ext)
  else (counts, new_filename).

(** The names given, in processing order, to the files whose generated
    names are [names]; the table is shared by the whole run. *)
Fixpoint count_titles (o : os) (counts : gmap str Z) (names : list str) : list str :=
  match names with
  | [] => []
  | n :: rest =>
      let '(counts', n') := count_title o counts n in
      n' :: count_titles o counts' rest
  end.

Definition dedup_run (o : os) (names : list str) : list str :=
  count_titles o ∅ names.

(** ** Predicates of the statements *)

Definition head_space (s : str) : bool :=
  match s with c :: _ => isspace c | [] => false end.

(** Whitespace is normalised: every whitespace character is a single space
    followed by a character that is not whitespace (or by nothing). *)
Fixpoint ws_ok (s : str) : Prop :=
  match s with
  | [] => True
  | c :: s' => (isspace c = true → c = space ∧ head_space s' = false) ∧ ws_ok s'
  end.

(** No whitespace touches a period. *)
Fixpoint tight (after_dot : bool) (s : str) : Prop :=
  match s with
  | [] => True
  | c :: s' =>
      if c =? dot then tight true s'
      else if isspace c
           then after_dot = false ∧ ws_then_dot s' = false ∧ tight false s'
           else tight false s'
  end.

Definition replace_table (tbl : list (char * str)) (s : str) : str :=
  fold_left (λ acc p, replace p.1 p.2 acc) tbl s.

Definition is_legal (c : char) : bool :=
  negb (bool_decide (c ∈ map fst Config.ILLEGAL_CHARS)).

(** The string does not end in whitespace. *)
Definition ends_clean (s : str) : Prop :=
  ∀ c, last s = Some c → isspace c = false.

(** What the cleaning steps establish, and every prefix keeps. *)
Definition normal (s : str) : Prop :=
  Forall (λ c, is_legal c = true) s ∧ ws_ok s
  ∧ head_space s = false ∧ tight false s.

(** A title long enough for the length limit to cut it after a space. *)
Definition long_title : str := replicate 149 97 ++ py " b".

Arguments isspace : simpl never.



(** How often [n] occurs in [l]. *)
Definition occurrences (n : str) (l : list str) : nat :=
  length (filter (λ x, x = n) l).

(** [global_title_counts[n]], read without inserting. *)
Definition seen (counts : gmap str Z) (n : str) : Z := default 0%Z (counts !! n).

(** The name kept for the [k]-th repetition of [n] ([k = 0]: the first
    time the name is generated). *)
Definition numbered (o : os) (n : str) (k : Z) : str :=
  if (0 <? k)%Z
  then let '(base_name, ext) := splitext o n in
       base_name ++ [underscore] ++ fmt_int k ++ ext
  else n.

(** ** The scorer, in the words of the design *)

Section ScorerSpec.
Context `{PyUnicode}.

(** The four additive criteria: length, word count, upper-case ratio and
    title keyword. *)
Definition spec_score (line : str) : Z :=
  ((if ((15 <? length line) && (length line <? 200))%nat then 2 else 0)
   + (if ((4 <? length (split_ws line)) && (length (split_ws line) <? 30))%nat
      then 2 else 0)
   + (if ratio_in_range line then 1 else 0)
   + (if has_keyword Config.TITLE_KEYWORDS (str_lower line) then 3 else 0))%Z.

(** A line that is scored: no exclusion marker, and through the pre-filter
    of line 309. *)
Definition eligible (line : str) : bool :=
  negb (non_title_marker line) && prefilter line.

(** [x] is the earliest element of [l] whose value under [f] is greatest. *)
Definition earliest_max {A} (f : A → Z) (l : list A) (x : A) : Prop :=
  ∃ i, l !! i = Some x
       ∧ (∀ j y, l !! j = Some y → (f y ≤ f x)%Z)
       ∧ (∀ j y, (j < i)%nat → l !! j = Some y → (f y < f x)%Z).

(** The test of strategy 2 (line 338). *)
Definition long_text (line : str) : bool :=
  (15 <? length line)%nat && negb (isdigit line).

(** [x] is the first element of [l] that satisfies [f], at an index below [n]. *)
Definition first_among {A} (n : nat) (f : A → bool) (l : list A) (x : A) : Prop :=
  ∃ i, (i < n)%nat ∧ l !! i = Some x ∧ f x = true
       ∧ ∀ j y, (j < i)%nat → l !! j = Some y → f y = false.

Definition none_among {A} (n : nat) (f : A → bool) (l : list A) : Prop :=
  ∀ j y, (j < n)%nat → l !! j = Some y → f y = false.

End ScorerSpec.

(** Two region texts on which the wording of the design and the program part. *)
Definition keyword_text : str := py "Deep model" ++ [newline] ++ py "aaaa bbbb cccc".
Definition flat_text : str := replicate 200 97 ++ [newline] ++ py "aaaa bbbb cccc".
Definition short_text : str := py "ab" ++ [newline] ++ py "abcd".
Definition scenario2_text : str :=
  py "Journal of Examples" ++ [newline] ++ py "Jane Doe" ++ [newline]
  ++ py "A Robust Method for Federated Unlearning via Bloom Filters".
Definition appendix_text : str :=
  py "ab" ++ [newline] ++ py "Supplementary-Material-Appendix".

(** ** The pipeline, in the words of the design *)

Section PipelineSpec.
Context `{PyUnicode}.

(** A metadata field wins: its value is non-empty and, lower-cased, not a
    placeholder, and it passes the validity check or is the title field. *)
Definition qualifies (m : gmap string str) (field : string) (v : str) : Prop :=
  m !! field = Some v ∧ v ≠ []
  ∧ (str_lower (strip v) ∉ PLACEHOLDERS)
  ∧ (validate_title (strip v) = true ∨ field = "/Title"%string).

(** [field] is the first of the four fields, in their priority order, to
    qualify. *)
Definition first_qualifying (m : gmap string str) (field : string) (v : str) : Prop :=
  ∃ i, title_fields !! i = Some field ∧ qualifies m field v
       ∧ ∀ j f v', (j < i)%nat → title_fields !! j = Some f → ¬ qualifies m f v'.

(** The pool of the low-confidence tier: the stripped lines of more than
    five characters, over all regions. *)
Definition spec_pool (rt : region_texts) : list str :=
  flat_map (λ text, List.filter (λ l, (5 <? length l)%nat)
                                (map strip (split_on newline text)))
           [rt_full rt; rt_header rt; rt_content rt; rt_footer rt].

Definition len (s : str) : Z := Z.of_nat (length s).

(** No region yields a valid candidate. *)
Definition no_valid_candidate (rt : region_texts) : Prop :=
  valid_candidate (rt_content rt) = None ∧ valid_candidate (rt_full rt) = None
  ∧ valid_candidate (rt_header rt) = None ∧ valid_candidate (rt_footer rt) = None.

End PipelineSpec.

(** The calls of [scan_regions] when every region fails. *)
Definition full_scan : list event :=
  [ScoreRegion Content; ScoreRegion Full; ScoreRegion Header; ScoreRegion Footer;
   LowConfidenceTier].

(** Documents for the examples. *)
Definition blank_page : page := {| page_text := λ _, inr None |}.

Definition page_of (text : str) : page := {| page_text := λ _, inr (Some text) |}.

Definition titled_document (title : str) : document :=
  {| open_reader := inr {| is_encrypted := false; decrypt_raises := false;
                           metadata := inr (Some {[ "/Title"%string := title ]}) |};
     open_plumber := inr [blank_page] |}.

Definition locked_document : document :=
  {| open_reader := inr {| is_encrypted := true; decrypt_raises := true;
                           metadata := inl (PdfReadError (py "File has not been decrypted")) |};
     open_plumber := inr [blank_page] |}.

(** A file protected by a password: [decrypt('')] returns (without the
    file being decrypted), and reading the metadata is refused. *)
Definition password_document : document :=
  {| open_reader := inr {| is_encrypted := true; decrypt_raises := false;
                           metadata := inl (PdfReadError (py "File has not been decrypted")) |};
     open_plumber := inr [blank_page] |}.

Definition scanned_document : document :=
  {| open_reader := inr {| is_encrypted := false; decrypt_raises := false;
                           metadata := inr None |};
     open_plumber := inr [page_of (py "12345678" ++ [newline] ++ py "Page one")] |}.

Definition scanned_texts : region_texts :=
  let text := py "12345678" ++ [newline] ++ py "Page one" in
  {| rt_full := text; rt_header := text; rt_content := text; rt_footer := text |}.

Definition scanned_reads : list event :=
  [ExtractText 0 Full; ExtractText 0 Header; ExtractText 0 Content; ExtractText 0 Footer].

Definition corrupt_document : document :=
  {| open_reader := inl (PdfReadError (py "EOF marker not found"));
     open_plumber := inl (PDFSyntaxError (py "No /Root object")) |}.

(** ** Further definitions for the statements *)

(** The text of a region, and the order in which the content tier tries
    the regions (lines 241-258). *)
Definition region_text (rt : region_texts) (r : region) : str :=
  match r with
  | Full => rt_full rt
  | Header => rt_header rt
  | Content => rt_content rt
  | Footer => rt_footer rt
  end.

Definition region_order : list region := [Content; Full; Header; Footer].

(** The statuses [extract_title] can return. *)
Definition PIPELINE_STATUSES : list str :=
  [py "encrypted"; py "corrupted"; py "metadata"; py "content";
   py "low_confidence"; py "extraction_failed"].

(** The metadata tier raises [e]: when the file is opened, or when the
    metadata of the opened (and, if need be, decrypted) file is read. *)
Definition metadata_raises (d : document) (e : exn) : Prop :=
  open_reader d = inl e
  ∨ ∃ reader, open_reader d = inr reader
              ∧ is_encrypted reader && decrypt_raises reader = false
              ∧ metadata reader = inl e.

Definition unreadable_document : document :=
  {| open_reader := inl (OtherError (py "Permission denied"));
     open_plumber := inr [page_of (py "A new framework for testing")] |}.

(** ** extract_keywords_from_title *)

Definition STOP_WORDS : list str :=
  map py [ "the"; "a"; "an"; "and"; "or"; "but"; "in"; "on"; "at"; "to"; "for";
           "of"; "with"; "by"; "from"; "as"; "is"; "are"; "was"; "were"; "be" ]%string.
Definition KEYWORD_MIN_LENGTH : nat := 3.
Definition MAX_KEYWORDS_LENGTH : nat := 30.

(** [sep.join(l)]. *)
Fixpoint join (sep : str) (l : list str) : str :=
  match l with
  | [] => []
  | x :: rest => match rest with [] => x | _ :: _ => x ++ sep ++ join sep rest end
  end.

(** The loop of lines 438-445, on [result] and [current_length]; the
    [break] returns the result as it is. *)
Fixpoint keywords_loop (result : str) (current_length : nat) (keywords : list str) : str :=
  match keywords with
  | [] => result
  | word :: rest =>
      if (current_length + length word <=? MAX_KEYWORDS_LENGTH)%nat
      then
        let result := if nonempty result then result ++ [underscore] else result in
        keywords_loop (result ++ word) (current_length + length word + 1) rest
      else result
  end.

Definition extract_keywords_from_title `{PyUnicode} (title : option str) : str :=
  if negb (truthy title) then py "Untitled"
  else
    let words := split_ws (str_lower (default [] title)) in
    let keywords :=
      List.filter (λ word, negb (bool_decide (word ∈ STOP_WORDS))
                           && (KEYWORD_MIN_LENGTH <=? length word)%nat) words in
    let result := keywords_loop [] 0 (take 5 keywords) in
    if negb (nonempty result)
    then take MAX_KEYWORDS_LENGTH (join [underscore] (take 3 words))
    else result.

(** ** extract_year *)

Section Year.
Context `{PyUnicode}.
(** The class [\w] of [re], which decides the word boundaries [\b]. *)
Variable isword : char → bool.

Definition is_word_at (o : option char) : bool :=
  match o with Some c => isword c | None => false end.

(** [\b] between the character before and the character after. *)
Definition boundary (prev next : option char) : bool :=
  xorb (is_word_at prev) (is_word_at next).

(** [(19|20)] on two characters. *)
Definition century (a b : char) : bool :=
  ((a =? 49) && (b =? 57)) || ((a =? 50) && (b =? 48)).

(** [re.findall(r'\b(19|20)\d{2}\b', s)]: the pattern has one group, so
    the list holds the group of each match, from left to right; the scan
    resumes after a match. *)
Fixpoint findall_year (prev : option char) (s : str) : list str :=
  match s with
  | [] => []
  | a :: s' =>
      match s' with
      | b :: c :: d :: rest =>
          if boundary prev (Some a) && century a b
             && uni_isdecimal c && uni_isdecimal d
             && boundary (Some d) (head rest)
          then [a; b] :: findall_year (Some d) rest
          else findall_year (Some a) s'
      | _ => findall_year (Some a) s'
      end
  end.

(** [re.findall(r'\((19|20)\d{2}\)', s)]. *)
Fixpoint findall_paren_year (s : str) : list str :=
  match s with
  | [] => []
  | p :: s' =>
      match s' with
      | a :: b :: c :: d :: q :: rest =>
          if (p =? 40) && century a b && uni_isdecimal c && uni_isdecimal d
             && (q =? 41)
          then [a; b] :: findall_paren_year rest
          else findall_paren_year s'
      | _ => findall_paren_year s'
      end
  end.

(** [int(s)] for a string of ASCII digits. *)
Definition py_int (s : str) : Z :=
  fold_left (λ acc c, (acc * 10 + (Z.of_N c - 48))%Z) s 0%Z.

(** [sorted(l, reverse=True)] on integers. *)
Fixpoint insert_desc_int (x : Z) (l : list Z) : list Z :=
  match l with
  | [] => [x]
  | y :: l' => if (x <? y)%Z then y :: insert_desc_int x l' else x :: l
  end.
Fixpoint sorted_desc (l : list Z) : list Z :=
  match l with
  | [] => []
  | x :: l' => insert_desc_int x (sorted_desc l')
  end.

(** The loop of lines 390-398 over [YEAR_PATTERNS]; [now] is
    [datetime.now().strftime("%Y")]. *)
Fixpoint year_loop (patterns : list (str → list str)) (now text : str) : str :=
  match patterns with
  | [] => now
  | findall :: rest =>
      if nonempty (findall text)
      then
        let full_matches := findall_year None text in
        match sorted_desc (map py_int full_matches) with
        | year :: _ => fmt_int year
        | [] => year_loop rest now text
        end
      else year_loop rest now text
  end.

Definition extract_year (now : str) (text : option str) : option str :=
  if negb (truthy text) then None
  else Some (year_loop [findall_year None; findall_paren_year] now (default [] text)).

End Year.

(** The class [\w] on Latin-1: [str.isalnum] or the underscore. *)
Definition latin1_isword (c : char) : bool :=
  ((48 <=? c) && (c <=? 57)) || ((65 <=? c) && (c <=? 90)) || (c =? 95)
  || ((97 <=? c) && (c <=? 122)) || (c =? 170) || (c =? 178) || (c =? 179)
  || (c =? 181) || (c =? 185) || (c =? 186) || ((188 <=? c) && (c <=? 190))
  || ((192 <=? c) && (c <=? 214)) || ((216 <=? c) && (c <=? 246))
  || ((248 <=? c) && (c <=? 255)).

(** ** rename_pdfs: the walk over a folder *)

Module Rename.

(** The dictionary [stats]. *)
Record stats := {
  total_files : Z; pdf_files : Z; renamed_files : Z; failed_files : Z;
  skipped_files : Z; encrypted_files : Z; corrupted_files : Z
}.

Definition no_stats : stats :=
  {| total_files := 0; pdf_files := 0; renamed_files := 0; failed_files := 0;
     skipped_files := 0; encrypted_files := 0; corrupted_files := 0 |}.

(** [stats[key] += 1], key by key. *)
Definition count_total (s : stats) : stats :=
  {| total_files := total_files s + 1; pdf_files := pdf_files s;
     renamed_files := renamed_files s; failed_files := failed_files s;
     skipped_files := skipped_files s; encrypted_files := encrypted_files s;
     corrupted_files := corrupted_files s |}.
Definition count_pdf (s : stats) : stats :=
  {| total_files := total_files s; pdf_files := pdf_files s + 1;
     renamed_files := renamed_files s; failed_files := failed_files s;
     skipped_files := skipped_files s; encrypted_files := encrypted_files s;
     corrupted_files := corrupted_files s |}.
Definition count_renamed (s : stats) : stats :=
  {| total_files := total_files s; pdf_files := pdf_files s;
     renamed_files := renamed_files s + 1; failed_files := failed_files s;
     skipped_files := skipped_files s; encrypted_files := encrypted_files s;
     corrupted_files := corrupted_files s |}.
Definition count_failed (s : stats) : stats :=
  {| total_files := total_files s; pdf_files := pdf_files s;
     renamed_files := renamed_files s; failed_files := failed_files s + 1;
     skipped_files := skipped_files s; encrypted_files := encrypted_files s;
     corrupted_files := corrupted_files s |}.
Definition count_skipped (s : stats) : stats :=
  {| total_files := total_files s; pdf_files := pdf_files s;
     renamed_files := renamed_files s; failed_files := failed_files s;
     skipped_files := skipped_files s + 1; encrypted_files := encrypted_files s;
     corrupted_files := corrupted_files s |}.
Definition count_encrypted (s : stats) : stats :=
  {| total_files := total_files s; pdf_files := pdf_files s;
     renamed_files := renamed_files s; failed_files := failed_files s;
     skipped_files := skipped_files s; encrypted_files := encrypted_files s + 1;
     corrupted_files := corrupted_files s |}.
Definition count_corrupted (s : stats) : stats :=
  {| total_files := total_files s; pdf_files := pdf_files s;
     renamed_files := renamed_files s; failed_files := failed_files s;
     skipped_files := skipped_files s; encrypted_files := encrypted_files s;
     corrupted_files := corrupted_files s + 1 |}.

(** The dictionary [file_info]; [title] is the key that only line 632 sets. *)
Record file_info := {
  original_filename : str; original_path : str;
  extracted_title : option str; institution : option str;
  new_filename : str; author : str; year : str; keywords : str;
  status : str; timestamp : str; error_message : option str;
  title : option str
}.

(** What the clock and the file system give for one file: the document,
    the processing time in its two formats, the current year, and the
    message of the exception of [shutil.move] when it raises. *)
Record file_input := {
  doc : document;
  stamp : str;              (* strftime("%Y-%m-%d %H:%M:%S") *)
  stamp_compact : str;      (* strftime("%Y%m%d_%H%M%S") *)
  year_now : str;           (* strftime("%Y") *)
  move_error : option str
}.

(** The state shared by the whole run. *)
Record run_state := {
  run_stats : stats;
  global_title_counts : gmap str Z;
  excel_data : list file_info
}.

Definition initial_state : run_state :=
  {| run_stats := no_stats; global_title_counts := ∅; excel_data := [] |}.

(** [DEFAULT_NAME_FORMAT] is "未识别文件_{timestamp}". *)
Definition DEFAULT_NAME_PREFIX : str := [26410; 35782; 21035; 25991; 20214; 95].

(** "重命名失败: ", the start of the message of a failed move. *)
Definition RENAME_FAILED_PREFIX : str := [37325; 21629; 21517; 22833; 36133; 58; 32].

(** "处理过程异常: ", the start of the message of the handler of line 675. *)
Definition PROCESSING_ERROR_PREFIX : str :=
  [22788; 29702; 36807; 31243; 24322; 24120; 58; 32].

Definition generate_default_filename (timestamp : str) : str :=
  DEFAULT_NAME_PREFIX ++ timestamp ++ PDF_EXT.

(** [s.endswith(p)]. *)
Definition ends_with (p s : str) : bool := starts_with (reverse p) (reverse s).

(** [re.match] of a pattern [^literal$]: the whole name, or the name and a
    final newline. *)
Definition matches_whole (literal item : str) : bool :=
  bool_decide (item = literal) || bool_decide (item = literal ++ [newline]).

(** Some pattern of [SKIP_PATTERNS] matches: [^\.], [^~\$],
    [^Thumbs\.db$], [^desktop\.ini$]. *)
Definition skip_pattern (item : str) : bool :=
  starts_with (py ".") item || starts_with (py "~$") item
  || matches_whole (py "Thumbs.db") item || matches_whole (py "desktop.ini") item.

Section Walk.
Context `{PyUnicode}.
Variable recursive : bool.
Variable custom_unknown_name : option str.
Variable o : os.

Definition hyphen : char := 45.

(** Lines 652-657: the name tried at the turn [counter] of the loop. *)
Definition collision_candidate (original_new_filename : str) (counter : Z) : str :=
  let '(name, ext) := splitext o original_new_filename in
  let name :=
    if contains [hyphen] name
       && isdigit (default [] (last (split_on hyphen name)))
    then join [hyphen] (removelast (split_on hyphen name))
    else name in
  name ++ [underscore] ++ fmt_int counter ++ ext.

(** The loop of lines 651-659; [dir] holds the names that exist in the
    folder, and [os.path.exists] is membership in it (names are compared
    exactly, as a case-sensitive file system does).  Each turn uses one
    unit of [fuel]. *)
Fixpoint collision_loop (fuel : nat) (dir : gset str) (original_new_filename : str)
    (counter : Z) (new_filename : str) : option str :=
  if bool_decide (new_filename ∈ dir)
  then
    match fuel with
    | O => None
    | S fuel' =>
        collision_loop fuel' dir original_new_filename (counter + 1)
          (collision_candidate original_new_filename counter)
    end
  else Some new_filename.

(** The loop ends within [size dir + 1] turns ([collision_loop_total]), so
    this fuel is never used up. *)
Definition free_name (dir : gset str) (new_filename : str) : str :=
  default new_filename
    (collision_loop (S (size dir)) dir new_filename 1 new_filename).

Definition set_naming (fi : file_info) (name : str) (st : str) (t : option str)
  : file_info :=
  {| original_filename := original_filename fi; original_path := original_path fi;
     extracted_title := extracted_title fi; institution := institution fi;
     new_filename := name; author := author fi; year := year fi;
     keywords := keywords fi; status := st; timestamp := timestamp fi;
     error_message := error_message fi; title := t |}.

Definition set_extracted (fi : file_info) (t i : option str) : file_info :=
  {| original_filename := original_filename fi; original_path := original_path fi;
     extracted_title := t; institution := i;
     new_filename := new_filename fi; author := author fi; year := year fi;
     keywords := keywords fi; status := status fi; timestamp := timestamp fi;
     error_message := error_message fi; title := title fi |}.

Definition set_error (fi : file_info) (st : str) (msg : str) : file_info :=
  {| original_filename := original_filename fi; original_path := original_path fi;
     extracted_title := extracted_title fi; institution := institution fi;
     new_filename := new_filename fi; author := author fi; year := year fi;
     keywords := keywords fi; status := st; timestamp := timestamp fi;
     error_message := Some msg; title := title fi |}.

(** Lines 587-642: the name and the status chosen for a PDF file.  The
    text that lines 612-621 read from the first pages is handed to
    [generate_paper_filename], which does not use it, and a failure of
    that reading is passed over; it is left out. *)
Definition choose_name (item : str) (f : file_input) (result : option str * str * option str)
    (fi : file_info) (s : stats) (counts : gmap str Z)
  : file_info * stats * gmap str Z :=
  let '(title, status, _) := result in
  if negb (truthy title)
  then
    if bool_decide (status = ENCRYPTED)
    then (set_naming fi (new_filename fi) (py "encrypted") None, count_encrypted s, counts)
    else if bool_decide (status = CORRUPTED)
    then (set_naming fi (new_filename fi) (py "corrupted") None, count_corrupted s, counts)
    else
      let base_name :=
        if truthy custom_unknown_name
        then sanitize_filename (default [] custom_unknown_name ++ [underscore] ++ stamp f)
        else generate_default_filename (stamp_compact f) in
      let new_filename := base_name ++ PDF_EXT in
      (set_naming fi new_filename (py "default_named") None, count_failed s, counts)
  else
    let new_filename := generate_paper_filename title in
    let t := take (length new_filename - 4) new_filename in
    let '(counts, new_filename) := count_title o counts new_filename in
    (set_naming fi new_filename
       (if bool_decide (status ∈ [METADATA; CONTENT]) then py "success" else status)
       (Some t),
     s, counts).

(** Lines 645-674: the move, when the chosen name differs from the name
    of the file. *)
Definition rename (item : str) (f : file_input) (fi : file_info) (s : stats)
    (dir : gset str) : file_info * stats * gset str :=
  if bool_decide (new_filename fi ≠ item)
  then
    let new_filename := free_name dir (new_filename fi) in
    let fi := set_naming fi new_filename (status fi) (title fi) in
    match move_error f with
    | None => (fi, count_renamed s, {[new_filename]} ∪ (dir ∖ {[item]}))
    | Some msg =>
        (set_error fi (py "rename_failed") (RENAME_FAILED_PREFIX ++ msg),
         count_failed s, dir)
    end
  else (fi, s, dir).

(** Lines 538-684: one entry of the listing that is a file.  In the [try]
    of lines 580-674 the call of [extract_title] on line 582 can raise;
    the handler of lines 675-681 then leaves the file as it is and records
    [processing_error].  [shutil.move] has its own handler, and nothing
    else in that body raises. *)
Definition process_file (directory item : str) (f : file_input)
    (st : run_state) (dir : gset str) : run_state * gset str :=
  let s := count_total (run_stats st) in
  if skip_pattern item
  then ({| run_stats := count_skipped s;
           global_title_counts := global_title_counts st;
           excel_data := excel_data st |}, dir)
  else if negb (ends_with PDF_EXT (str_lower item))
  then ({| run_stats := count_skipped s;
           global_title_counts := global_title_counts st;
           excel_data := excel_data st |}, dir)
  else
    let s := count_pdf s in
    (* file_info as initialised on lines 566-578 *)
    let fi :=
      {| original_filename := item; original_path := directory;
         extracted_title := None; institution := None; new_filename := item;
         author := py "Unknown"; year := year_now f; keywords := py "Untitled";
         status := py "skipped"; timestamp := stamp f; error_message := None;
         title := None |} in
    match (extract_title (doc f)).1 with
    | inr result =>
        (* lines 583-584 *)
        let fi := set_extracted fi result.1.1 result.2 in
        let '(fi, s, counts) := choose_name item f result fi s (global_title_counts st) in
        let '(fi, s, dir) := rename item f fi s dir in
        ({| run_stats := s; global_title_counts := counts;
            excel_data := excel_data st ++ [fi] |}, dir)
    | inl e =>
        (* lines 675-681 *)
        let fi := set_error fi (py "processing_error")
                    (PROCESSING_ERROR_PREFIX ++ exn_str e) in
        ({| run_stats := count_failed s;
            global_title_counts := global_title_counts st;
            excel_data := excel_data st ++ [fi] |}, dir)
    end.

(** An entry of a folder: a sub-folder with its path and what
    [os.listdir] gives for it ([None] when it raises), a file, or
    something that is neither. *)
#[warnings="-register-all"]
Inductive entry :=
  | Folder (name : str) (path : str) (listing : option (list entry))
  | RegularFile (name : str) (f : file_input)
  | Special (name : str).

Definition entry_name (e : entry) : str :=
  match e with Folder n _ _ | RegularFile n _ | Special n => n end.

Definition entry_names (items : list entry) : gset str :=
  list_to_set (map entry_name items).

(** Lines 526-684, one turn of the loop over the listing of [directory];
    a sub-folder is walked with the names of its own listing. *)
Fixpoint process_entry (directory : str) (e : entry) (st : run_state)
    (dir : gset str) {struct e} : run_state * gset str :=
  match e with
  | Folder _ path listing =>
      if recursive
      then
        (match listing with
         | Some items =>
             ((fix process_items (items : list entry) (st : run_state)
                   (dir : gset str) {struct items} : run_state * gset str :=
                 match items with
                 | [] => (st, dir)
                 | e' :: rest =>
                     let '(st', dir') := process_entry path e' st dir in
                     process_items rest st' dir'
                 end) items st (entry_names items)).1
         | None => st
         end, dir)
      else (st, dir)
  | RegularFile name f => process_file directory name f st dir
  | Special _ => (st, dir)
  end.

Fixpoint process_items (directory : str) (items : list entry) (st : run_state)
    (dir : gset str) : run_state * gset str :=
  match items with
  | [] => (st, dir)
  | e :: rest =>
      let '(st', dir') := process_entry directory e st dir in
      process_items directory rest st' dir'
  end.

(** [process_directory(directory)]: the listing is read once; when
    [os.listdir] raises, the folder is logged and left. *)
Definition process_directory (directory : str) (listing : option (list entry))
    (st : run_state) : run_state :=
  match listing with
  | Some items => (process_items directory items st (entry_names items)).1
  | None => st
  end.

End Walk.

End Rename.

(** The counters and the records of a run agree. *)
Definition consistent (st : Rename.run_state) : Prop :=
  let s := Rename.run_stats st in
  (Rename.total_files s = Rename.skipped_files s + Rename.pdf_files s
   ∧ Rename.pdf_files s = Z.of_nat (length (Rename.excel_data st))
   ∧ 0 ≤ Rename.skipped_files s ∧ 0 ≤ Rename.renamed_files s
   ∧ 0 ≤ Rename.encrypted_files s ∧ 0 ≤ Rename.corrupted_files s
   ∧ 0 ≤ Rename.failed_files s
   ∧ Rename.renamed_files s + Rename.encrypted_files s + Rename.corrupted_files s
     ≤ Rename.pdf_files s
   ∧ Rename.failed_files s ≤ 2 * Rename.pdf_files s)%Z.

(** The statuses a record of [excel_data] can have. *)
Definition RECORD_STATUSES : list str :=
  [py "encrypted"; py "corrupted"; py "default_named"; py "success";
   py "low_confidence"; py "rename_failed"; py "processing_error"].

(** A record as the walk leaves it. *)
Definition record_ok (fi : Rename.file_info) : Prop :=
  Rename.status fi ∈ RECORD_STATUSES
  ∧ (Rename.status fi ∈ [py "encrypted"; py "corrupted"; py "processing_error"] →
     Rename.new_filename fi = Rename.original_filename fi
     ∧ Rename.extracted_title fi = None)
  ∧ (is_Some (Rename.error_message fi)
     ↔ Rename.status fi ∈ [py "rename_failed"; py "processing_error"])
  ∧ (is_Some (Rename.title fi) ↔ is_Some (Rename.extracted_title fi)).


(** A sample folder: two files with the same metadata title, a hidden
    file, a text file, an encrypted file and an empty sub-folder. *)
Definition sample_input (d : document) : Rename.file_input :=
  {| Rename.doc := d; Rename.stamp := py "2024-01-02 03:04:05";
     Rename.stamp_compact := py "20240102_030405"; Rename.year_now := py "2024";
     Rename.move_error := None |}.

Definition sample_listing : list Rename.entry :=
  [ Rename.RegularFile (py "a.pdf") (sample_input (titled_document (py "Graph Neural Networks")));
    Rename.RegularFile (py "B.PDF") (sample_input (titled_document (py "Graph Neural Networks")));
    Rename.RegularFile (py ".hidden.pdf") (sample_input (titled_document (py "Hidden")));
    Rename.RegularFile (py "notes.txt") (sample_input corrupt_document);
    Rename.RegularFile (py "locked.pdf") (sample_input locked_document);
    Rename.Folder (py "sub") (py "root/sub") (Some []);
    Rename.RegularFile (py "scan.pdf") (sample_input corrupt_document) ].

Definition framework_texts : region_texts :=
  let text := py "A new framework for testing" in
  {| rt_full := text; rt_header := text; rt_content := text; rt_footer := text |}.

(** A file whose pipeline finds nothing at all. *)
Definition empty_document : document :=
  {| open_reader := inr {| is_encrypted := false; decrypt_raises := false;
                           metadata := inr None |};
     open_plumber := inr [blank_page] |}.

(** A file that PyPDF2 reads (no metadata) and pdfplumber rejects. *)
Definition broken_document : document :=
  {| open_reader := inr {| is_encrypted := false; decrypt_raises := false;
                           metadata := inr None |};
     open_plumber := inl (PDFSyntaxError (py "No /Root object")) |}.


(** * Properties *)

(** A closed decidable statement, settled by evaluation. *)
Ltac by_compute := apply (bool_decide_unpack _); vm_compute; exact I.

(** ** The string methods on examples *)

Example split_on_ex : split_on newline (py "ab" ++ [newline; newline] ++ py "c")
                      = [py "ab"; []; py "c"].
Proof. reflexivity. Qed.

Example split_ws_ex : split_ws (py "  a  bc d ") = [py "a"; py "bc"; py "d"].
Proof. reflexivity. Qed.

Example strip_ex : strip ([9; 32] ++ py "a b" ++ [160; 10]) = py "a b".
Proof. reflexivity. Qed.

Example strip_chars_ex : strip_chars [underscore] (py "__a_b_") = py "a_b".
Proof. reflexivity. Qed.

Example collapse_ws_ex : collapse_ws (py " a" ++ [9; 10] ++ py "b  ") = py " a b ".
Proof. reflexivity. Qed.

Example sub_dots_ex : sub_dots (py "a . b  c. .d e") = py "a.b  c..d e".
Proof. reflexivity. Qed.

Example contains_ex : contains (py "model") (py "a deep model.") = true
                      ∧ contains (py "model") (py "modal") = false.
Proof. split; reflexivity. Qed.

Example non_title_marker_ex :
  non_title_marker (py "Proceedings 2021") = true
  ∧ non_title_marker (py "See Vol. 3") = true
  ∧ non_title_marker (py "Deep model") = false.
Proof. repeat split; reflexivity. Qed.

Example validate_title_ex :
  validate_title (py "A new framework") = true
  ∧ validate_title (py "Graph Neural Networks") = true
  ∧ validate_title (py "Short one") = false.
Proof. repeat split; reflexivity. Qed.

Example sanitize_ex1 :
  sanitize_filename (py "  What is  a <Model> : part 1 .  pdf? ")
  = py "What is a (Model) - part 1.pdf".
Proof. vm_compute. reflexivity. Qed.

Example splitext_ex1 : splitext Posix (py "a.b/c.tar.gz") = (py "a.b/c.tar", py ".gz").
Proof. vm_compute. reflexivity. Qed.
Example splitext_ex2 : splitext Posix (py "dir/.bashrc") = (py "dir/.bashrc", []).
Proof. vm_compute. reflexivity. Qed.
Example dedup_ex1 :
  dedup_run Windows (map py ["A.pdf"; "B.pdf"; "A.pdf"; "A.pdf"]%string)
  = map py ["A.pdf"; "B.pdf"; "A_1.pdf"; "A_2.pdf"]%string.
Proof. vm_compute. reflexivity. Qed.
Section SanitizeFacts.

Lemma isspace_space : isspace space = true.
Proof. reflexivity. Qed.

Lemma isspace_dot : isspace dot = false.
Proof. reflexivity. Qed.

Lemma replace_Forall (Q : char → Prop) c rep s :
  Forall Q s → Forall Q rep → Forall Q (replace c rep s).
Proof.
  intros Hs Hrep. induction Hs as [|x s Hx _ IH]; simpl; [constructor|].
  apply Forall_app. split; [|exact IH].
  destruct (x =? c); [exact Hrep | by constructor].
Qed.

Lemma replace_removes c rep s :
  Forall (λ x, x ≠ c) rep → Forall (λ x, x ≠ c) (replace c rep s).
Proof.
  intros Hrep. induction s as [|x s IH]; simpl; [constructor|].
  apply Forall_app. split; [|exact IH].
  destruct (N.eqb_spec x c); [exact Hrep | by constructor].
Qed.

Lemma replace_id c rep s : Forall (λ x, x ≠ c) s → replace c rep s = s.
Proof.
  induction 1 as [|x s Hx _ IH]; simpl; [done|].
  destruct (N.eqb_spec x c); [done|]. simpl. by rewrite IH.
Qed.

Lemma replace_table_Forall (Q : char → Prop) tbl s :
  Forall Q s → Forall (λ p, Forall Q p.2) tbl → Forall Q (replace_table tbl s).
Proof.
  intros Hs Htbl. revert s Hs.
  induction Htbl as [|p tbl Hp _ IH]; intros s Hs; simpl; [done|].
  apply IH. by apply replace_Forall.
Qed.

Lemma replace_table_removes c tbl s :
  c ∈ map fst tbl → Forall (λ p, Forall (λ x, x ≠ c) p.2) tbl →
  Forall (λ x, x ≠ c) (replace_table tbl s).
Proof.
  intros Hin Htbl. revert s Hin.
  induction Htbl as [|p tbl Hp Htbl IH]; intros s Hin; simpl in *.
  - by apply elem_of_nil in Hin.
  - apply elem_of_cons in Hin as [->|Hin].
    + apply replace_table_Forall; [by apply replace_removes | done].
    + by apply IH.
Qed.

Lemma replace_table_id tbl s :
  Forall (λ x, x ∉ map fst tbl) s → replace_table tbl s = s.
Proof.
  revert s. induction tbl as [|p tbl IH]; intros s Hs; simpl; [done|].
  rewrite replace_id.
  - apply IH. eapply Forall_impl; [exact Hs|]. simpl. intros x Hx Hin.
    apply Hx. by right.
  - eapply Forall_impl; [exact Hs|]. simpl. intros x Hx ->. apply Hx. by left.
Qed.

Lemma is_legal_spec c : is_legal c = true ↔ c ∉ map fst Config.ILLEGAL_CHARS.
Proof.
  unfold is_legal. rewrite negb_true_iff, bool_decide_eq_false. done.
Qed.

Lemma replace_illegal_legal s : Forall (λ c, is_legal c = true) (replace_illegal s).
Proof.
  apply Forall_forall. intros c Hc. apply is_legal_spec. intros Hin.
  assert (Forall (λ x, x ≠ c) (replace_illegal s)) as Hne.
  { apply (replace_table_removes c Config.ILLEGAL_CHARS s Hin).
    clear Hc. simpl in Hin. rewrite !elem_of_cons, elem_of_nil in Hin.
    repeat (destruct Hin as [->|Hin]); try done;
      repeat (constructor; simpl); done. }
  rewrite Forall_forall in Hne. by apply (Hne c).
Qed.

Lemma replace_illegal_id s :
  Forall (λ c, is_legal c = true) s → replace_illegal s = s.
Proof.
  intros Hs. apply replace_table_id.
  eapply Forall_impl; [exact Hs|]. intros c. by rewrite is_legal_spec.
Qed.

(** *** Whitespace runs *)

Lemma collapse_ws_cons c s :
  collapse_ws (c :: s) =
  if isspace c
  then (if head_space s then collapse_ws s else space :: collapse_ws s)
  else c :: collapse_ws s.
Proof. destruct s; reflexivity. Qed.

Lemma collapse_ws_Forall (Q : char → Prop) s :
  Q space → Forall Q s → Forall Q (collapse_ws s).
Proof.
  intros Hsp. induction 1 as [|c s Hc Hs IH]; [done|].
  rewrite collapse_ws_cons.
  destruct (isspace c); [|by constructor].
  destruct (head_space s); [done | by constructor].
Qed.

Lemma head_space_collapse s : head_space (collapse_ws s) = head_space s.
Proof.
  induction s as [|c s IH]; [done|]. rewrite collapse_ws_cons.
  cbn [head_space]. destruct (isspace c) eqn:Hc; [|by simpl].
  destruct (head_space s) eqn:Hh; [by rewrite IH | done].
Qed.

Lemma collapse_ws_ok s : ws_ok (collapse_ws s).
Proof.
  induction s as [|c s IH]; [done|]. rewrite collapse_ws_cons.
  destruct (isspace c) eqn:Hc.
  - destruct (head_space s) eqn:Hh; [done|].
    split; [|done]. intros _. split; [done|].
    by rewrite head_space_collapse.
  - split; [|done]. by rewrite Hc.
Qed.

Lemma ws_ok_collapse s : ws_ok s → collapse_ws s = s.
Proof.
  induction s as [|c s IH]; [done|]. intros [Hc Hs].
  rewrite collapse_ws_cons, (IH Hs).
  destruct (isspace c) eqn:Ec; [|done].
  destruct (Hc eq_refl) as [-> ->]. done.
Qed.

Lemma ws_ok_space s c : ws_ok s → c ∈ s → isspace c = true → c = space.
Proof.
  induction s as [|x s IH]; simpl; intros Hok Hin Hc.
  - by apply elem_of_nil in Hin.
  - destruct Hok as [Hx Hs].
    apply elem_of_cons in Hin as [->|Hin]; [by apply Hx | by apply IH].
Qed.

(** *** strip *)

Lemma lstrip_by_Forall (Q : char → Prop) f s : Forall Q s → Forall Q (lstrip_by f s).
Proof.
  induction 1 as [|c s Hc Hs IH]; simpl; [done|].
  destruct (f c); [done | by constructor].
Qed.

Lemma rstrip_by_Forall (Q : char → Prop) f s : Forall Q s → Forall Q (rstrip_by f s).
Proof.
  induction 1 as [|c s Hc Hs IH]; [done|].
  cbn [rstrip_by]. destruct (forallb f (c :: s)); [done | by constructor].
Qed.

Lemma head_space_lstrip s : head_space (lstrip_by isspace s) = false.
Proof.
  induction s as [|c s IH]; simpl; [done|].
  destruct (isspace c) eqn:Hc; [done | by simpl].
Qed.

Lemma lstrip_id s : head_space s = false → lstrip_by isspace s = s.
Proof. destruct s as [|c s]; simpl; [done|]. by intros ->. Qed.

Lemma head_space_rstrip s :
  head_space s = false → head_space (rstrip_by isspace s) = false.
Proof.
  destruct s as [|c s]; [done|]. cbn [rstrip_by].
  destruct (forallb isspace (c :: s)); done.
Qed.

Lemma ws_ok_lstrip s : ws_ok s → ws_ok (lstrip_by isspace s).
Proof.
  induction s as [|c s IH]; simpl; [done|]. intros [Hc Hs].
  destruct (isspace c) eqn:E; [by apply IH |]. simpl. rewrite E. by split.
Qed.

Lemma ws_ok_rstrip s : ws_ok s → ws_ok (rstrip_by isspace s).
Proof.
  induction s as [|c s IH]; [done|]. intros [Hc Hs]. cbn [rstrip_by].
  destruct (forallb isspace (c :: s)); [done|]. split; [|by apply IH].
  intros E. destruct (Hc E) as [-> Hh]. split; [done|]. by apply head_space_rstrip.
Qed.

Lemma rstrip_by_nil f s : rstrip_by f s = [] ↔ forallb f s = true.
Proof.
  destruct s as [|c s]; [done|]. cbn [rstrip_by].
  destruct (forallb f (c :: s)); split; done.
Qed.

Lemma forallb_last f (s : str) c : forallb f s = true → last s = Some c → f c = true.
Proof.
  intros Hall Hl. apply last_Some_elem_of in Hl.
  rewrite forallb_forall in Hall. apply Hall. by apply list_elem_of_In.
Qed.

Lemma rstrip_ends_clean s : ends_clean (rstrip_by isspace s).
Proof.
  induction s as [|c s IH]; [by intros ? ?|]. cbn [rstrip_by].
  destruct (forallb isspace (c :: s)) eqn:Hall; [by intros ? ?|].
  intros x Hx. rewrite last_cons in Hx.
  destruct (last (rstrip_by isspace s)) as [y|] eqn:Hl.
  - injection Hx as <-. by apply IH.
  - injection Hx as <-. apply last_None, rstrip_by_nil in Hl.
    simpl in Hall. rewrite Hl, andb_true_r in Hall. done.
Qed.

Lemma ends_clean_tail c s : s ≠ [] → ends_clean (c :: s) → ends_clean s.
Proof.
  intros Hne Hc x Hx. apply Hc. rewrite last_cons, Hx. done.
Qed.

Lemma rstrip_id s : ends_clean s → rstrip_by isspace s = s.
Proof.
  induction s as [|c s IH]; [done|]. intros Hc. cbn [rstrip_by].
  destruct (forallb isspace (c :: s)) eqn:Hall.
  - destruct (last (c :: s)) as [x|] eqn:Hl.
    + pose proof (forallb_last _ _ _ Hall Hl) as Hx. rewrite (Hc x Hl) in Hx. done.
    + by apply last_None in Hl.
  - f_equal. destruct s as [|d s']; [done|]. apply IH.
    by apply (ends_clean_tail c).
Qed.

Lemma strip_fixed s : head_space s = false → ends_clean s → strip s = s.
Proof.
  intros Hh Hc. unfold strip. rewrite (lstrip_id s Hh). by apply rstrip_id.
Qed.

(** *** Periods *)

Lemma sub_dots_aux_Forall (Q : char → Prop) b s :
  Forall Q s → Forall Q (sub_dots_aux b s).
Proof.
  intros Hs. revert b. induction Hs as [|c s Hc Hs IH]; intros b; simpl; [done|].
  destruct (N.eqb_spec c dot) as [->|_]; [by constructor|].
  destruct (isspace c); [|by constructor].
  destruct (b || ws_then_dot s); [done | by constructor].
Qed.

Lemma head_space_sub_dots b s :
  head_space s = false → head_space (sub_dots_aux b s) = false.
Proof.
  destruct s as [|c s]; simpl; [done|]. intros Hc.
  destruct (c =? dot); [done|]. rewrite Hc. simpl. done.
Qed.

Lemma ws_ok_sub_dots b s : ws_ok s → ws_ok (sub_dots_aux b s).
Proof.
  revert b. induction s as [|c s IH]; intros b; simpl; [done|]. intros [Hc Hs].
  destruct (N.eqb_spec c dot) as [->|_].
  { split; [|by apply IH]. by rewrite isspace_dot. }
  destruct (isspace c) eqn:Ec.
  - destruct (b || ws_then_dot s); [by apply IH|].
    split; [|by apply IH]. intros _. destruct (Hc eq_refl) as [-> Hh].
    split; [done|]. by apply head_space_sub_dots.
  - split; [|by apply IH]. by rewrite Ec.
Qed.

Lemma ws_then_dot_sub_dots s : ws_then_dot (sub_dots_aux false s) = ws_then_dot s.
Proof.
  induction s as [|c s IH]; simpl; [done|].
  destruct (N.eqb_spec c dot) as [->|Hne]; [done|].
  destruct (isspace c) eqn:Ec.
  - destruct (ws_then_dot s) eqn:Ew; simpl; [done|].
    destruct (N.eqb_spec c dot); [done|]. by rewrite Ec.
  - simpl. destruct (N.eqb_spec c dot); [done|]. by rewrite Ec.
Qed.

Lemma tight_sub_dots b s : tight b (sub_dots_aux b s).
Proof.
  revert b. induction s as [|c s IH]; intros b; simpl; [done|].
  destruct (N.eqb_spec c dot) as [->|Hne]; [simpl; by apply IH|].
  destruct (isspace c) eqn:Ec.
  - destruct b; simpl; [by apply IH|].
    destruct (ws_then_dot s) eqn:Ew; [by apply IH|]. simpl.
    destruct (N.eqb_spec c dot); [done|]. rewrite Ec.
    by rewrite ws_then_dot_sub_dots.
  - simpl. destruct (N.eqb_spec c dot); [done|]. rewrite Ec. by apply IH.
Qed.

Lemma tight_fixed b s : tight b s → sub_dots_aux b s = s.
Proof.
  revert b. induction s as [|c s IH]; intros b; simpl; [done|].
  destruct (N.eqb_spec c dot) as [->|Hne]; [intros; f_equal; by apply IH|].
  destruct (isspace c) eqn:Ec.
  - intros (-> & -> & Ht). simpl. f_equal. by apply IH.
  - intros Ht. f_equal. by apply IH.
Qed.

Lemma sub_dots_aux_snoc b s x :
  isspace x = false → ∃ y, sub_dots_aux b (s ++ [x]) = y ++ [x].
Proof.
  intros Hx. revert b. induction s as [|c s IH]; intros b; simpl.
  - destruct (N.eqb_spec x dot) as [->|_]; [by exists []|]. rewrite Hx. by exists [].
  - destruct (N.eqb_spec c dot) as [->|_].
    { destruct (IH true) as [y ->]. by exists (dot :: y). }
    destruct (isspace c).
    + destruct (b || ws_then_dot (s ++ [x])); [by apply IH|].
      destruct (IH false) as [y ->]. by exists (c :: y).
    + destruct (IH false) as [y ->]. by exists (c :: y).
Qed.

Lemma sub_dots_ends_clean b s : ends_clean s → ends_clean (sub_dots_aux b s).
Proof.
  intros Hc. destruct (last s) as [x|] eqn:Hl.
  - pose proof (Hc x Hl) as Hx. apply last_Some in Hl as [s0 ->].
    destruct (sub_dots_aux_snoc b s0 x Hx) as [y ->].
    intros c. rewrite last_snoc. by intros [= <-].
  - apply last_None in Hl as ->. by intros ? ?.
Qed.

(** *** Prefixes *)

Lemma head_space_take n s : head_space s = false → head_space (take n s) = false.
Proof. destruct s, n; done. Qed.

Lemma ws_ok_take n s : ws_ok s → ws_ok (take n s).
Proof.
  revert n. induction s as [|c s IH]; intros [|n]; simpl; try done.
  intros [Hc Hs]. split; [|by apply IH].
  intros E. destruct (Hc E) as [-> Hh]. split; [done|]. by apply head_space_take.
Qed.

Lemma ws_then_dot_take n s : ws_then_dot s = false → ws_then_dot (take n s) = false.
Proof.
  revert n. induction s as [|c s IH]; intros [|n]; simpl; try done.
  destruct (c =? dot); [done|]. destruct (isspace c); [by apply IH | done].
Qed.

Lemma tight_take b n s : tight b s → tight b (take n s).
Proof.
  revert b n. induction s as [|c s IH]; intros b [|n]; simpl; try done.
  destruct (c =? dot); [by apply IH|].
  destruct (isspace c); [|by apply IH].
  intros (Hb & Hw & Ht). split; [done|]. split; [by apply ws_then_dot_take | by apply IH].
Qed.

(** *** The cleaned name *)

Lemma cleaned_normal s : normal (cleaned s).
Proof.
  unfold cleaned, sub_dots, strip. repeat split.
  - apply sub_dots_aux_Forall, rstrip_by_Forall, lstrip_by_Forall,
      collapse_ws_Forall; [done | apply replace_illegal_legal].
  - apply ws_ok_sub_dots, ws_ok_rstrip, ws_ok_lstrip, collapse_ws_ok.
  - apply head_space_sub_dots, head_space_rstrip, head_space_lstrip.
  - apply tight_sub_dots.
Qed.

Lemma cleaned_ends_clean s : ends_clean (cleaned s).
Proof. apply sub_dots_ends_clean, rstrip_ends_clean. Qed.

Lemma normal_take n s : normal s → normal (take n s).
Proof.
  intros (Hl & Hw & Hh & Ht). repeat split.
  - by apply Forall_take.
  - by apply ws_ok_take.
  - by apply head_space_take.
  - by apply tight_take.
Qed.

Lemma normal_truncate n s : normal s → normal (truncate n s).
Proof.
  intros Hs. unfold truncate. case_bool_decide; [by apply normal_take | done].
Qed.

Lemma truncate_length n s : (length (truncate n s) ≤ n)%nat.
Proof.
  unfold truncate. case_bool_decide; [rewrite length_take|]; lia.
Qed.

Lemma truncate_id n s : (length s ≤ n)%nat → truncate n s = s.
Proof. intros Hn. unfold truncate. case_bool_decide; [lia | done]. Qed.

Lemma cleaned_fixed t : normal t → ends_clean t → cleaned t = t.
Proof.
  intros (Hl & Hw & Hh & Ht) Hc. unfold cleaned.
  rewrite (replace_illegal_id t Hl), (ws_ok_collapse t Hw), (strip_fixed t Hh Hc).
  by apply tight_fixed.
Qed.

Lemma lstrip_by_length f s : (length (lstrip_by f s) ≤ length s)%nat.
Proof. induction s as [|c s IH]; simpl; [done|]. destruct (f c); simpl; lia. Qed.

Lemma rstrip_by_length f s : (length (rstrip_by f s) ≤ length s)%nat.
Proof.
  induction s as [|c s IH]; [done|]. cbn [rstrip_by].
  destruct (forallb f (c :: s)); simpl; lia.
Qed.

Lemma sub_dots_aux_length b s : (length (sub_dots_aux b s) ≤ length s)%nat.
Proof.
  revert b. induction s as [|c s IH]; intros b; simpl; [done|].
  pose proof (IH true). pose proof (IH false). pose proof (IH b).
  destruct (c =? dot); [simpl; lia|].
  destruct (isspace c); [|simpl; lia].
  destruct (b || ws_then_dot s); simpl; lia.
Qed.

Lemma cleaned_length t : normal t → (length (cleaned t) ≤ length t)%nat.
Proof.
  intros (Hl & Hw & _). unfold cleaned, sub_dots, strip.
  rewrite (replace_illegal_id t Hl), (ws_ok_collapse t Hw).
  etrans; [apply sub_dots_aux_length|].
  etrans; [apply rstrip_by_length|]. apply lstrip_by_length.
Qed.

Lemma normal_ends_clean t : normal t → last t ≠ Some space → ends_clean t.
Proof.
  intros (_ & Hw & _) Hl c Hc. destruct (isspace c) eqn:E; [|done].
  destruct Hl. rewrite Hc. f_equal.
  apply (ws_ok_space t c Hw); [by apply last_Some_elem_of | done].
Qed.

Lemma ends_clean_not_space t : ends_clean t → last t ≠ Some space.
Proof. intros Hc Hl. by apply Hc in Hl. Qed.

(** The result of [sanitize_filename] is the label or a cut cleaned name. *)
Lemma sanitize_filename_cases s :
  sanitize_filename s = UNNAMED
  ∨ (sanitize_filename s = truncate Config.MAX_TITLE_LENGTH (cleaned s)
     ∧ sanitize_filename s ≠ [] ∧ sanitize_filename s ≠ [dot]).
Proof.
  unfold sanitize_filename. destruct (nonempty s); cbn [negb]; [|by left].
  generalize (truncate Config.MAX_TITLE_LENGTH (cleaned s)). intros t.
  destruct t as [|c t']; cbn [nonempty negb orb]; [by left|].
  case_bool_decide; [by left | by right].
Qed.

Lemma sanitize_filename_fixed t :
  normal t → ends_clean t → (length t ≤ Config.MAX_TITLE_LENGTH)%nat →
  t ≠ [] → t ≠ [dot] → sanitize_filename t = t.
Proof.
  intros Hn Hc Hlen Hne Hdot. unfold sanitize_filename.
  destruct t as [|c t']; [done|]. cbn [nonempty negb].
  rewrite (cleaned_fixed _ Hn Hc), (truncate_id _ _ Hlen).
  cbn [nonempty negb orb]. by rewrite bool_decide_eq_false_2.
Qed.

Lemma sanitize_unnamed : sanitize_filename UNNAMED = UNNAMED.
Proof. vm_compute. reflexivity. Qed.

Lemma sanitize_filename_ends_clean_short t :
  normal t → (length t ≤ Config.MAX_TITLE_LENGTH)%nat → ends_clean (sanitize_filename t).
Proof.
  intros Hn Hlen. destruct (sanitize_filename_cases t) as [->|(-> & _)].
  - intros c [= <-]. reflexivity.
  - rewrite truncate_id; [apply cleaned_ends_clean|].
    etrans; [by apply cleaned_length | done].
Qed.

(** C7 (as amended).  Sanitizing a sanitized name gives the same name exactly
    when that name does not end in a space, which can happen only where the
    150-character limit cut the cleaned name just after a space. *)
Theorem sanitize_filename_idempotent_iff (s : str) :
  sanitize_filename (sanitize_filename s) = sanitize_filename s
  ↔ last (sanitize_filename s) ≠ Some space.
Proof.
  destruct (sanitize_filename_cases s) as [->|(E & Hne & Hdot)].
  { rewrite sanitize_unnamed. split; [by intros _ [=] | done]. }
  assert (normal (sanitize_filename s)) as Hn
    by (rewrite E; apply normal_truncate, cleaned_normal).
  assert (length (sanitize_filename s) ≤ Config.MAX_TITLE_LENGTH)%nat as Hlen
    by (rewrite E; apply truncate_length).
  split.
  - intros Hfix. apply ends_clean_not_space. rewrite <-Hfix.
    by apply sanitize_filename_ends_clean_short.
  - intros Hl. apply sanitize_filename_fixed; try done.
    by apply normal_ends_clean.
Qed.

(** A title with a colon: its sanitized name ends in a letter and is a
    fixed point. *)
Lemma sanitize_filename_idempotent_witness :
  sanitize_filename (sanitize_filename (py "Deep Learning: A Survey"))
  = sanitize_filename (py "Deep Learning: A Survey").
Proof.
  apply (sanitize_filename_idempotent_iff (py "Deep Learning: A Survey")).
  vm_compute. discriminate.
Defined.

(** C7 (as stated) fails: the cleaned form of [long_title] has 151
    characters, the cut leaves 149 letters and a space, and the second pass
    strips that space. *)
Lemma sanitize_filename_not_idempotent :
  sanitize_filename long_title = replicate 149 97 ++ [space]
  ∧ sanitize_filename (sanitize_filename long_title) = replicate 149 97
  ∧ sanitize_filename (sanitize_filename long_title) ≠ sanitize_filename long_title.
Proof. vm_compute. repeat split. discriminate. Qed.

End SanitizeFacts.

(** ** generate_paper_filename *)

Section BuilderFacts.



Lemma sanitize_filename_legal s :
  Forall (λ c, is_legal c = true) (sanitize_filename s).
Proof.
  destruct (sanitize_filename_cases s) as [->|(-> & _)].
  - by repeat constructor.
  - apply normal_truncate, cleaned_normal.
Qed.

(** A generated name is a base without path separators, then [.pdf]. *)
Lemma generate_paper_filename_base title :
  ∃ A, generate_paper_filename title = A ++ PDF_EXT
       ∧ (slash ∉ A) ∧ (backslash ∉ A).
Proof.
  unfold generate_paper_filename. eexists. split; [reflexivity|].
  set (t := sanitize_filename _).
  assert (Forall (λ c, is_legal c = true)
            (strip_chars [underscore]
               (if (Config.MAX_TITLE_LENGTH - 4 <? length t)%nat
                then take (Config.MAX_TITLE_LENGTH - 4) t else t))) as Hl.
  { unfold strip_chars. apply rstrip_by_Forall, lstrip_by_Forall.
    destruct (_ <? _)%nat; [apply Forall_take|]; apply sanitize_filename_legal. }
  rewrite Forall_forall in Hl.
  split; intros Hin; by apply Hl in Hin.
Qed.



(** A blank title: the sanitizer would give its label, but the file is
    named after the label of the builder. *)
Example generate_paper_filename_blank_label :
  sanitize_filename (strip (py "  ")) = UNNAMED
  ∧ generate_paper_filename (Some (py "  ")) = UNKNOWN_TITLE ++ PDF_EXT.
Proof. vm_compute. done. Qed.


(** The underscores stripped on line 478 can leave nothing at all. *)
Example generate_paper_filename_underscore :
  generate_paper_filename (Some (py "_")) = py ".pdf"
  ∧ base_name (Some (py "_")) = [].
Proof. vm_compute. done. Qed.

End BuilderFacts.

(** ** The count of generated names *)

Section DedupFacts.





Lemma seen_insert counts m n v :
  seen (<[m := v]> counts) n = if decide (m = n) then v else seen counts n.
Proof.
  unfold seen. destruct (decide (m = n)) as [->|Hne].
  - by rewrite lookup_insert_eq.
  - by rewrite lookup_insert_ne.
Qed.

Lemma count_title_numbered o counts n :
  (0 ≤ seen counts n)%Z → (count_title o counts n).2 = numbered o n (seen counts n).
Proof.
  intros Hk. unfold count_title, numbered. fold (seen counts n).
  destruct (Z.ltb_spec 1 (seen counts n + 1)), (Z.ltb_spec 0 (seen counts n));
    try lia; [|done].
  destruct (splitext o n). simpl. by replace (seen counts n + 1 - 1)%Z with (seen counts n) by lia.
Qed.

Lemma count_title_table o counts n :
  (count_title o counts n).1 = <[n := (seen counts n + 1)%Z]> counts.
Proof.
  unfold count_title. fold (seen counts n).
  destruct (1 <? seen counts n + 1)%Z; [|done]. by destruct (splitext o n).
Qed.

Lemma occurrences_cons n m l :
  occurrences n (m :: l) = ((if decide (m = n) then 1 else 0) + occurrences n l)%nat.
Proof.
  unfold occurrences. rewrite filter_cons. by destruct (decide (m = n)).
Qed.

(** Every file gets its generated name, numbered by how often the run has
    generated that name before. *)
Lemma count_titles_lookup o counts names i n :
  (∀ m, 0 ≤ seen counts m)%Z → names !! i = Some n →
  count_titles o counts names !! i
  = Some (numbered o n (seen counts n + Z.of_nat (occurrences n (take i names)))).
Proof.
  revert counts i. induction names as [|m names IH]; intros counts i Hpos Hi; [done|].
  cbn [count_titles].
  pose proof (count_title_numbered o counts m (Hpos m)) as Hn.
  pose proof (count_title_table o counts m) as Ht.
  destruct (count_title o counts m) as [counts' m']. simpl in Hn, Ht. subst.
  destruct i as [|i]; simpl in Hi.
  - injection Hi as ->. simpl. unfold occurrences. simpl. by rewrite Z.add_0_r.
  - simpl. rewrite (IH _ i);
      [|intros x; rewrite seen_insert; case_decide; [specialize (Hpos m); lia | done]|done].
    do 2 f_equal. rewrite occurrences_cons, seen_insert.
    destruct (decide (m = n)) as [->|Hne]; lia.
Qed.



End DedupFacts.

(** ** The candidate scorer *)

Section ScorerFacts.
Context `{PyUnicode}.

Lemma score_spec line : score line = spec_score line.
Proof.
  unfold score, spec_score.
  destruct ((15 <? length line) && (length line <? 200))%nat,
    ((4 <? length (split_ws line)) && (length (split_ws line) <? 30))%nat,
    (ratio_in_range line), (has_keyword _ _); reflexivity.
Qed.

Lemma candidate_titles_filter lines :
  candidate_titles lines = map (λ l, (l, spec_score l)) (List.filter eligible lines).
Proof.
  induction lines as [|l lines IH]; [done|]. cbn [candidate_titles List.filter].
  unfold eligible at 1. destruct (non_title_marker l); cbn [negb andb]; [done|].
  destruct (prefilter l); [|done]. cbn [map]. by rewrite IH, score_spec.
Qed.

Lemma head_insert_desc x l :
  head (insert_desc x l)
  = Some (match head l with
          | Some y => if (x.2 <? y.2)%Z then y else x
          | None => x
          end).
Proof. destruct l as [|y l]; [done|]. simpl. by destruct (x.2 <? y.2)%Z. Qed.

Lemma sort_desc_nil l : sort_desc l = [] → l = [].
Proof.
  destruct l as [|x l]; [done|]. simpl. intros E.
  pose proof (head_insert_desc x (sort_desc l)) as Hh. by rewrite E in Hh.
Qed.

(** The head of the stable descending sort is the earliest entry of the
    greatest score. *)
Lemma sort_desc_head (l : list (str * Z)) x :
  head (sort_desc l) = Some x → earliest_max snd l x.
Proof.
  revert x. induction l as [|a l IH]; intros x; [done|].
  cbn [sort_desc]. rewrite head_insert_desc. intros [= <-].
  destruct (head (sort_desc l)) as [y|] eqn:Hy.
  - destruct (IH y eq_refl) as (i & Hi & Hmax & Hfirst).
    destruct (Z.ltb_spec a.2 y.2) as [Hlt|Hge].
    + exists (S i). split; [done|]. split.
      * intros [|j] z Hz; simpl in Hz; [injection Hz as <-; lia | by eapply Hmax].
      * intros [|j] z Hj Hz; simpl in Hz; [by injection Hz as <- |].
        eapply Hfirst; [|done]. lia.
    + exists 0%nat. split; [done|]. split; [|intros; lia].
      intros [|j] z Hz; simpl in Hz; [injection Hz as <-; lia|].
      specialize (Hmax j z Hz). lia.
  - apply head_None, sort_desc_nil in Hy as ->.
    exists 0%nat. split; [done|]. split; [|intros; lia].
    intros [|j] z Hz; simpl in Hz; [injection Hz as <-; lia | done].
Qed.

Lemma earliest_max_fmap (f : str → Z) (l : list str) (p : str * Z) :
  earliest_max snd (map (λ x, (x, f x)) l) p → earliest_max f l p.1 ∧ p.2 = f p.1.
Proof.
  intros (i & Hi & Hmax & Hfirst).
  change (map (λ x, (x, f x)) l) with ((λ x, (x, f x)) <$> l) in *.
  rewrite list_lookup_fmap in Hi.
  destruct (l !! i) as [x|] eqn:Hx; [|done]. injection Hi as <-. simpl.
  split; [|done]. exists i. split; [done|]. split.
  - intros j y Hj. apply (Hmax j (y, f y)). by rewrite list_lookup_fmap, Hj.
  - intros j y Hlt Hj. apply (Hfirst j (y, f y) Hlt). by rewrite list_lookup_fmap, Hj.
Qed.

Lemma strategy1_spec lines :
  match strategy1 lines with
  | Some l => earliest_max spec_score (List.filter eligible (take 10 lines)) l
  | None => List.filter eligible (take 10 lines) = []
  end.
Proof.
  unfold strategy1. rewrite candidate_titles_filter.
  destruct (sort_desc _) as [|[l sc] rest] eqn:Hs.
  - apply sort_desc_nil in Hs. by destruct (List.filter _ _).
  - assert (head (sort_desc (map (λ l, (l, spec_score l))
                                 (List.filter eligible (take 10 lines)))) = Some (l, sc)) as Hh
      by (by rewrite Hs).
    apply sort_desc_head, earliest_max_fmap in Hh. apply Hh.
Qed.

Lemma meaningful_lines_nil_text : meaningful_lines [] = [].
Proof. reflexivity. Qed.

Lemma extract_title_from_text_strategy1 text l :
  strategy1 (meaningful_lines text) = Some l → extract_title_from_text text = Some l.
Proof.
  intros Hs. unfold extract_title_from_text.
  destruct text as [|c text]; [done|]. cbn [nonempty negb].
  destruct (meaningful_lines (c :: text)) as [|m ms]; [done|].
  cbn [nonempty negb]. by rewrite Hs.
Qed.

(** C2 (as amended).  Among the first ten considered lines, the scored
    ones are those without an exclusion marker that pass the pre-filter;
    each gets the sum of the four criteria; and when there is one, the
    scorer returns the earliest line of the greatest score. *)
Theorem scorer_returns_earliest_max (text : str) :
  let lines := meaningful_lines text in
  let scored := List.filter eligible (take 10 lines) in
  candidate_titles (take 10 lines) = map (λ l, (l, spec_score l)) scored
  ∧ (scored ≠ [] →
     ∃ l, extract_title_from_text text = Some l ∧ earliest_max spec_score scored l).
Proof.
  intros lines scored. split; [apply candidate_titles_filter|]. intros Hne.
  pose proof (strategy1_spec lines) as Hs.
  destruct (strategy1 lines) as [l|] eqn:E; [|done].
  exists l. split; [by apply extract_title_from_text_strategy1 | done].
Qed.

(** ** The fallback strategies *)

Lemma find_first_among {A} (f : A → bool) (l : list A) n :
  match List.find f (take n l) with
  | Some x => first_among n f l x
  | None => none_among n f l
  end.
Proof.
  revert n. induction l as [|a l IH]; intros [|n]; simpl; try by intros ? ? ?.
  { intros j y Hj. lia. }
  destruct (f a) eqn:Ha.
  - exists 0%nat. repeat split; [lia|done|]. intros; lia.
  - specialize (IH n). destruct (List.find f (take n l)) as [x|].
    + destruct IH as (i & Hi & Hx & Hfx & Hbefore).
      exists (S i). repeat split; [lia|done|done|].
      intros [|j] y Hj Hy; simpl in Hy; [by injection Hy as <-|].
      apply (Hbefore j); [lia|done].
    + intros [|j] y Hj Hy; simpl in Hy; [by injection Hy as <-|].
      apply (IH j); [lia|done].
Qed.

Lemma filter_nil_forall {A} (f : A → bool) (l : list A) :
  (∀ x, x ∈ l → f x = false) → List.filter f l = [].
Proof.
  induction l as [|a l IH]; intros Hl; [done|]. simpl.
  rewrite (Hl a) by by left. apply IH. intros x Hx. apply Hl. by right.
Qed.

(** C6 (as amended).  When none of the first ten considered lines is
    scored, the result is the first of the first five considered lines that
    is longer than 15 characters and not purely numeric; without such a
    line it is the first considered line; and it is nothing only when
    there is no considered line. *)
Theorem fallback_when_nothing_scored (text : str) :
  let lines := meaningful_lines text in
  (∀ l, l ∈ take 10 lines → eligible l = false) →
  match extract_title_from_text text with
  | Some r => first_among 5 long_text lines r
              ∨ (none_among 5 long_text lines ∧ head lines = Some r)
  | None => lines = []
  end.
Proof.
  intros lines Hnone. unfold extract_title_from_text.
  destruct text as [|c text]; [done|]. cbn [nonempty negb]. fold lines.
  destruct lines as [|m ms] eqn:El; [done|]. cbn [nonempty negb].
  pose proof (strategy1_spec (m :: ms)) as Hs.
  rewrite (filter_nil_forall _ _ Hnone) in Hs.
  destruct (strategy1 (m :: ms)) as [l|].
  { destruct Hs as (i & Hi & _). done. }
  unfold strategy2. pose proof (find_first_among long_text (m :: ms) 5) as Hf.
  fold long_text. change (λ line, (15 <? length line)%nat && negb (isdigit line)) with long_text.
  destruct (List.find long_text (take 5 (m :: ms))) as [x|]; [by left | by right].
Qed.

(** ** The pre-filter *)

Lemma elem_of_filter_bool {A} (f : A → bool) (l : list A) x :
  x ∈ List.filter f l ↔ x ∈ l ∧ f x = true.
Proof. rewrite !list_elem_of_In. apply filter_In. Qed.

Lemma meaningful_lines_spec text l :
  l ∈ meaningful_lines text →
  (3 < length l)%nat ∧ ∃ raw, raw ∈ split_on newline text ∧ l = strip raw.
Proof.
  unfold meaningful_lines. rewrite elem_of_filter_bool.
  intros (Hin & Hf). apply andb_true_iff in Hf as [_ Hlen].
  apply Nat.ltb_lt in Hlen. split; [done|].
  change (map strip (split_on newline text)) with (strip <$> split_on newline text) in Hin.
  apply list_elem_of_fmap in Hin as (raw & -> & Hraw). eauto.
Qed.

(** C10.  A line is in the candidate list only if it has at least three
    words and more than ten characters (and no exclusion marker, and a
    place among the first ten considered lines); so the line that the
    scoring stage returns passes this pre-filter whatever its score; and a
    considered line is a stripped line of the text of more than three
    characters. *)
Theorem prefilter_gates_scoring (text : str) :
  let lines := meaningful_lines text in
  (∀ l sc, (l, sc) ∈ candidate_titles (take 10 lines) →
     (3 ≤ length (split_ws l))%nat ∧ (10 < length l)%nat
     ∧ non_title_marker l = false ∧ l ∈ take 10 lines)
  ∧ (∀ l, strategy1 lines = Some l →
       (3 ≤ length (split_ws l))%nat ∧ (10 < length l)%nat)
  ∧ (∀ l, l ∈ lines →
       (3 < length l)%nat ∧ ∃ raw, raw ∈ split_on newline text ∧ l = strip raw).
Proof.
  intros lines.
  assert (∀ l, l ∈ List.filter eligible (take 10 lines) →
            (3 ≤ length (split_ws l))%nat ∧ (10 < length l)%nat
            ∧ non_title_marker l = false ∧ l ∈ take 10 lines) as Hel.
  { intros l. rewrite elem_of_filter_bool. intros (Hin & He).
    unfold eligible, prefilter in He.
    apply andb_true_iff in He as [Hm Hp]. apply andb_true_iff in Hp as [Hw Hl].
    apply Nat.leb_le in Hw. apply Nat.ltb_lt in Hl.
    apply negb_true_iff in Hm. done. }
  split; [|split].
  - intros l sc. rewrite candidate_titles_filter.
    change (map ?f ?x) with (f <$> x). rewrite list_elem_of_fmap.
    intros (l' & [= -> ->] & Hin). by apply Hel.
  - intros l Hs. pose proof (strategy1_spec lines) as Hspec. rewrite Hs in Hspec.
    destruct Hspec as (i & Hi & _).
    apply list_elem_of_lookup_2, Hel in Hi. tauto.
  - apply meaningful_lines_spec.
Qed.

End ScorerFacts.

Section Ratio.
Context `{PyUnicode}.

(** The integer test of [ratio_in_range] is the comparison of the exact
    quotient with 1/5 and 4/5. *)
Lemma ratio_in_range_exact line :
  let u := Z.of_nat (uppercase_count line) in
  let m := Pos.of_nat (max (length line) 1) in
  ratio_in_range line = true
  ↔ QArith_base.Qlt (QArith_base.Qmake 1 5) (QArith_base.Qmake u m)
    ∧ QArith_base.Qlt (QArith_base.Qmake u m) (QArith_base.Qmake 4 5).
Proof.
  intros u m. unfold ratio_in_range, QArith_base.Qlt. simpl.
  assert (Z.pos m = Z.of_nat (max (length line) 1)) as ->.
  { unfold m. rewrite <-positive_nat_Z, Nat2Pos.id; lia. }
  rewrite andb_true_iff, !Nat.ltb_lt. unfold u. lia.
Qed.

End Ratio.

(** ** The scorer on Latin-1 text *)

Section ScorerExamples.

(** The second end-to-end scenario of the design: keyword +3, length +2,
    word count +2. *)
Example scenario2_selected :
  extract_title_from_text scenario2_text
  = Some (py "A Robust Method for Federated Unlearning via Bloom Filters")
  ∧ score (py "A Robust Method for Federated Unlearning via Bloom Filters") = 7%Z
  ∧ score (py "Journal of Examples") = 2%Z.
Proof. vm_compute. done. Qed.

Lemma scorer_returns_earliest_max_witness :
  ∃ l, extract_title_from_text scenario2_text = Some l
       ∧ earliest_max spec_score
           (List.filter eligible (take 10 (meaningful_lines scenario2_text))) l.
Proof.
  apply (scorer_returns_earliest_max scenario2_text). vm_compute. discriminate.
Defined.

(** C2 (as stated) fails: "Deep model" has no exclusion marker and rates 3
    (its keyword), "aaaa bbbb cccc" rates 0; but "Deep model" has two words
    and ten characters, so it is never scored, and the other line is
    returned. *)
Lemma scorer_skips_short_lines :
  extract_title_from_text keyword_text = Some (py "aaaa bbbb cccc")
  ∧ List.filter (λ l, negb (non_title_marker l)) (take 10 (meaningful_lines keyword_text))
    = [py "Deep model"; py "aaaa bbbb cccc"]
  ∧ spec_score (py "Deep model") = 3%Z
  ∧ spec_score (py "aaaa bbbb cccc") = 0%Z
  ∧ ¬ earliest_max spec_score
        (List.filter (λ l, negb (non_title_marker l))
                     (take 10 (meaningful_lines keyword_text)))
        (py "aaaa bbbb cccc").
Proof.
  repeat split; try (vm_compute; reflexivity).
  intros (i & _ & Hmax & _).
  specialize (Hmax 0%nat (py "Deep model") eq_refl). vm_compute in Hmax. done.
Qed.

Lemma fallback_when_nothing_scored_witness :
  match extract_title_from_text appendix_text with
  | Some r => first_among 5 long_text (meaningful_lines appendix_text) r
              ∨ (none_among 5 long_text (meaningful_lines appendix_text)
                 ∧ head (meaningful_lines appendix_text) = Some r)
  | None => meaningful_lines appendix_text = []
  end.
Proof.
  apply (fallback_when_nothing_scored appendix_text).
  intros l Hl. vm_compute in Hl. apply list_elem_of_singleton in Hl as ->.
  vm_compute. reflexivity.
Defined.

Example fallback_appendix :
  extract_title_from_text appendix_text = Some (py "Supplementary-Material-Appendix").
Proof. vm_compute. reflexivity. Qed.

(** C6 (as stated) fails: no line of [flat_text] rates above 0, and its
    first line has 200 characters and is not numeric; but the second line
    is in the candidate list with score 0, so strategy 1 returns it and the
    fallback is never reached. *)
Lemma fallback_not_reached_on_zero_score :
  (∀ l, l ∈ take 10 (meaningful_lines flat_text) → spec_score l = 0%Z)
  ∧ first_among 5 long_text (meaningful_lines flat_text) (replicate 200 97)
  ∧ extract_title_from_text flat_text = Some (py "aaaa bbbb cccc")
  ∧ extract_title_from_text flat_text ≠ Some (replicate 200 97).
Proof.
  split; [|split; [|split]].
  - intros l Hl. vm_compute in Hl.
    apply elem_of_cons in Hl as [->|Hl]; [vm_compute; reflexivity|].
    apply list_elem_of_singleton in Hl as ->. vm_compute. reflexivity.
  - exists 0%nat. split; [lia|]. split; [vm_compute; reflexivity|].
    split; [vm_compute; reflexivity|]. intros; lia.
  - vm_compute. reflexivity.
  - vm_compute. discriminate.
Qed.

(** Strategy 3 returns the first considered line, not the first non-empty
    line of the text. *)
Example fallback_first_considered_line :
  extract_title_from_text short_text = Some (py "abcd")
  ∧ head (List.filter nonempty (map strip (split_on newline short_text))) = Some (py "ab").
Proof. vm_compute. done. Qed.

Lemma prefilter_gates_scoring_witness :
  (3 ≤ length (split_ws (py "A Robust Method for Federated Unlearning via Bloom Filters")))%nat
  ∧ (10 < length (py "A Robust Method for Federated Unlearning via Bloom Filters"))%nat.
Proof.
  apply (prefilter_gates_scoring scenario2_text). vm_compute. reflexivity.
Defined.

End ScorerExamples.

(** ** The title pipeline *)

Section PipelineFacts.
Context `{PyUnicode}.

(** *** The metadata tier *)

Lemma placeholders_nil : [] ∈ PLACEHOLDERS.
Proof. by left. Qed.

Lemma strip_nonempty_of_qualifies m field v :
  qualifies m field v → nonempty (strip v) = true.
Proof.
  intros (_ & _ & Hp & _). destruct (strip v); [|done].
  destruct Hp. rewrite str_lower_nil. apply placeholders_nil.
Qed.

(** One turn of the loop of [scan_fields] takes the field when it
    qualifies, and moves on when it does not. *)
Lemma scan_fields_take m field rest v :
  qualifies m field v → scan_fields m (field :: rest) = Some (strip v).
Proof.
  intros Hq. pose proof (strip_nonempty_of_qualifies _ _ _ Hq) as Hs.
  destruct Hq as (Hv & Hne & Hp & Hok).
  cbn [scan_fields]. rewrite Hv. simpl default. rewrite Hs.
  destruct v; [done|]. cbn [nonempty andb].
  rewrite (bool_decide_eq_false_2 _ Hp). cbn [negb].
  destruct Hok as [-> | ->]; [done|]. by rewrite orb_true_r.
Qed.

Lemma scan_fields_skip m field rest :
  (∀ v, ¬ qualifies m field v) → scan_fields m (field :: rest) = scan_fields m rest.
Proof.
  intros Hq. cbn [scan_fields].
  destruct (m !! field) as [v|] eqn:Hv; [|done]. simpl default.
  specialize (Hq v). unfold qualifies in Hq.
  destruct v as [|c v']; [done|]. set (v := c :: v') in *. cbn [nonempty andb].
  destruct (nonempty (strip v)); [|done]. cbn [andb].
  destruct (decide (str_lower (strip v) ∈ PLACEHOLDERS)) as [Hin|Hin].
  { by rewrite (bool_decide_eq_true_2 _ Hin). }
  rewrite (bool_decide_eq_false_2 _ Hin). cbn [negb].
  destruct (validate_title (strip v)) eqn:Ev; cbn [orb].
  { destruct Hq. repeat split; auto. }
  destruct (String.eqb_spec field "/Title") as [->|Hne]; [|done].
  destruct Hq. repeat split; auto.
Qed.

Lemma scan_fields_first m fields i field v :
  fields !! i = Some field → qualifies m field v →
  (∀ j f v', (j < i)%nat → fields !! j = Some f → ¬ qualifies m f v') →
  scan_fields m fields = Some (strip v).
Proof.
  revert i. induction fields as [|f fields IH]; intros i Hi Hq Hbefore; [done|].
  destruct i as [|i]; simpl in Hi.
  - injection Hi as ->. by apply scan_fields_take.
  - rewrite scan_fields_skip.
    + apply (IH i Hi Hq). intros j f' v' Hj Hf. apply (Hbefore (S j)); [lia | done].
    + intros v'. apply (Hbefore 0%nat); [lia | done].
Qed.

Lemma first_page_institution_trace d :
  (ContentTier ∉ (first_page_institution d).2)
  ∧ (LowConfidenceTier ∉ (first_page_institution d).2).
Proof.
  unfold first_page_institution, try_except, bind, call, ret.
  destruct (open_plumber d) as [e|[|p ps]]; [split; by_compute..|].
  destruct (page_text p Full) as [e|t]; split; by_compute.
Qed.

(** C1.  When the metadata can be read, the first of the fields title,
    subject, topic, keywords that qualifies gives the title: its value,
    stripped, is returned with status [metadata], and the content tier is
    not entered. *)
Theorem metadata_title_wins (d : document) (reader : pdf_reader)
    (m : gmap string str) (field : string) (v : str) :
  open_reader d = inr reader →
  (is_encrypted reader = true → decrypt_raises reader = false) →
  metadata reader = inr (Some m) →
  first_qualifying m field v →
  ∃ institution trace,
    extract_title d = (inr (Some (strip v), METADATA, institution), trace)
    ∧ (ContentTier ∉ trace).
Proof.
  intros Hopen Hdec Hmeta (i & Hi & Hq & Hbefore).
  pose proof (scan_fields_first m title_fields i field v Hi Hq Hbefore) as Hscan.
  pose proof (strip_nonempty_of_qualifies m field v Hq) as Hne.
  assert (extract_title_from_metadata d = ((Some (strip v), None), [MetadataTier])) as Hm.
  { unfold extract_title_from_metadata, metadata_body, try_except, call.
    rewrite Hopen.
    destruct (is_encrypted reader); [rewrite Hdec by done|]; cbn [andb];
      by rewrite Hmeta, Hscan. }
  unfold extract_title. rewrite Hm.
  rewrite !bool_decide_eq_false_2 by discriminate.
  cbn [truthy]. rewrite Hne.
  destruct (first_page_institution_trace d) as [Hc _].
  destruct (first_page_institution d) as [institution t2].
  exists institution, ([MetadataTier] ++ t2). split; [done|].
  rewrite not_elem_of_app. split; [by_compute | done].
Qed.

(** *** Encrypted documents *)

(** The status [encrypted] is reached through the handler of line 165
    alone: when [reader.decrypt('')] raises, the result is (no title,
    [encrypted], no institution) and the run is the metadata tier alone. *)
Lemma decrypt_raises_encrypted (d : document) (reader : pdf_reader) :
  open_reader d = inr reader →
  is_encrypted reader = true → decrypt_raises reader = true →
  extract_title d = (inr (None, ENCRYPTED, None), [MetadataTier]).
Proof.
  intros Hopen Henc Hdec.
  unfold extract_title, extract_title_from_metadata, metadata_body, try_except, call.
  rewrite Hopen, Henc, Hdec. reflexivity.
Qed.

(** C3.  A document flagged encrypted that the empty password does not
    open is not reported as [encrypted]: [reader.decrypt('')] reports the
    failure by its return value, which line 163 drops, so the program goes
    on to read the metadata; PyPDF2 refuses with a [PdfReadError] ("File
    has not been decrypted") and the result is (no title, [corrupted], no
    institution).  The run is still the metadata tier alone. *)
Theorem encrypted_reported_corrupted (d : document) (reader : pdf_reader) (msg : str) :
  open_reader d = inr reader →
  is_encrypted reader = true → decrypt_raises reader = false →
  metadata reader = inl (PdfReadError msg) →
  extract_title d = (inr (None, CORRUPTED, None), [MetadataTier]).
Proof.
  intros Hopen Henc Hdec Hmeta.
  unfold extract_title, extract_title_from_metadata, metadata_body, try_except, call.
  rewrite Hopen, Henc, Hdec, Hmeta. reflexivity.
Qed.

End PipelineFacts.

Section TierFacts.
Context `{PyUnicode}.

(** *** The content tier *)

Lemma bind_inr {A B} (m : M A) (k : A → M B) b t :
  bind m k = (inr b, t) →
  ∃ a t1 t2, m = (inr a, t1) ∧ k a = (inr b, t2) ∧ t = t1 ++ t2.
Proof.
  unfold bind. destruct m as [[e|a] t1]; [done|].
  destruct (k a) as [r t2] eqn:Ek. intros [= -> <-]. by exists a, t1, t2.
Qed.

Lemma valid_candidate_nonempty text title :
  valid_candidate text = Some title → nonempty title = true.
Proof.
  unfold valid_candidate. destruct (extract_title_from_text text) as [l|]; [|done].
  destruct (nonempty l) eqn:E; [|done]. simpl.
  destruct (validate_title l); [|done]. by intros [= <-].
Qed.

(** Either a region gives a valid title, which is returned without a
    status, or all four fail and the low-confidence tier runs. *)
Lemma scan_regions_cases rt :
  (∃ title t, scan_regions rt
              = (inr (Some title, None, extract_institution (rt_full rt)), t)
              ∧ nonempty title = true)
  ∨ (no_valid_candidate rt ∧ scan_regions rt = (inr (low_confidence rt), full_scan)).
Proof.
  unfold scan_regions, no_valid_candidate.
  destruct (valid_candidate (rt_content rt)) as [t1|] eqn:E1.
  { left. eexists _, _. split; [reflexivity|]. by eapply valid_candidate_nonempty. }
  destruct (valid_candidate (rt_full rt)) as [t2|] eqn:E2.
  { left. eexists _, _. split; [reflexivity|]. by eapply valid_candidate_nonempty. }
  destruct (valid_candidate (rt_header rt)) as [t3|] eqn:E3.
  { left. eexists _, _. split; [reflexivity|]. by eapply valid_candidate_nonempty. }
  destruct (valid_candidate (rt_footer rt)) as [t4|] eqn:E4.
  { left. eexists _, _. split; [reflexivity|]. by eapply valid_candidate_nonempty. }
  right. done.
Qed.

(** *** The low-confidence tier *)

Lemma pool_region_spec text :
  pool_region text
  = List.filter (λ l, (5 <? length l)%nat) (map strip (split_on newline text)).
Proof.
  unfold pool_region. destruct text as [|c text]; [done|]. cbn [nonempty].
  apply filter_ext. intros l. by destruct l.
Qed.

Lemma all_lines_spec rt : all_lines rt = spec_pool rt.
Proof.
  unfold all_lines, spec_pool. cbn [flat_map].
  by rewrite !pool_region_spec, app_nil_r.
Qed.

Lemma earliest_max_singleton {A} (f : A → Z) x : earliest_max f [x] x.
Proof.
  exists 0%nat. split; [done|]. split; [|intros; lia].
  intros [|j] y Hy; simpl in Hy; [injection Hy as <-; lia | done].
Qed.

Lemma earliest_max_snoc (l : list str) best x :
  earliest_max len l best →
  earliest_max len (l ++ [x]) (if (length best <? length x)%nat then x else best).
Proof.
  intros (i & Hi & Hmax & Hfirst).
  pose proof (lookup_lt_Some _ _ _ Hi) as Hlt.
  destruct (Nat.ltb_spec (length best) (length x)) as [Hbx|Hbx].
  - exists (length l). split; [by rewrite list_lookup_middle|]. split.
    + intros j y Hy. apply lookup_app_Some in Hy as [Hy|[_ Hy]].
      * specialize (Hmax j y Hy). unfold len in *. lia.
      * apply list_lookup_singleton_Some in Hy as [_ <-]. lia.
    + intros j y Hj Hy. rewrite lookup_app_l in Hy by done.
      specialize (Hmax j y Hy). unfold len in *. lia.
  - exists i. split; [by rewrite lookup_app_l|]. split.
    + intros j y Hy. apply lookup_app_Some in Hy as [Hy|[_ Hy]].
      * by apply (Hmax j).
      * apply list_lookup_singleton_Some in Hy as [_ <-]. unfold len. lia.
    + intros j y Hj Hy. rewrite lookup_app_l in Hy by lia. by apply (Hfirst j).
Qed.

Lemma max_by_len_from_spec rest seen best :
  earliest_max len seen best →
  earliest_max len (seen ++ rest) (max_by_len_from best rest).
Proof.
  revert seen best. induction rest as [|x rest IH]; intros seen best Hb; simpl.
  - by rewrite app_nil_r.
  - rewrite (cons_middle x seen rest), (assoc_L (++)).
    apply IH. by apply earliest_max_snoc.
Qed.

Lemma low_confidence_spec rt :
  let kept := List.filter (λ l, negb (isdigit l)) (take 10 (spec_pool rt)) in
  match kept with
  | [] => low_confidence rt = (None, Some NO_TITLE_FOUND, None)
  | _ :: _ =>
      ∃ l, low_confidence rt
           = (Some l, Some LOW_CONFIDENCE, extract_institution (rt_full rt))
           ∧ earliest_max len kept l
  end.
Proof.
  cbv zeta. unfold low_confidence, candidate_lines. rewrite all_lines_spec.
  destruct (List.filter _ (take 10 (spec_pool rt))) as [|x rest] eqn:Ek.
  - by destruct (nonempty (spec_pool rt)).
  - assert (nonempty (spec_pool rt) = true) as ->.
    { destruct (spec_pool rt); [|done]. by rewrite take_nil in Ek. }
    exists (max_by_len_from x rest). split; [done|].
    apply (max_by_len_from_spec rest [x] x), earliest_max_singleton.
Qed.

(** C4.  When the pages are read and no region yields a valid candidate,
    the low-confidence tier runs: of the first ten lines of the pool (the
    stripped lines of more than five characters of all regions) it drops
    the purely numeric ones and returns the earliest longest of the rest
    with status [low_confidence], whether or not that line is a valid
    title; when nothing is left, and so when the pool is empty, the status
    is [no_title_found]. *)
Theorem low_confidence_tier (d : document) (pages : list page)
    (rt : region_texts) (t0 : list event) :
  open_plumber d = inr pages →
  read_pages 0 (take (min Config.MAX_PAGES_TO_CHECK (length pages)) pages) empty_texts
  = (inr rt, t0) →
  no_valid_candidate rt →
  let kept := List.filter (λ l, negb (isdigit l)) (take 10 (spec_pool rt)) in
  ∃ trace,
    LowConfidenceTier ∈ trace
    ∧ match kept with
      | [] => extract_title_from_content d = (inr (None, Some NO_TITLE_FOUND, None), trace)
      | _ :: _ =>
          ∃ l, extract_title_from_content d
               = (inr (Some l, Some LOW_CONFIDENCE, extract_institution (rt_full rt)), trace)
               ∧ earliest_max len kept l
      end.
Proof.
  intros Hopen Hread Hno. cbv zeta.
  assert (scan_regions rt = (inr (low_confidence rt), full_scan)) as Hscan.
  { unfold scan_regions. destruct Hno as (-> & -> & -> & ->). reflexivity. }
  exists ([ContentTier] ++ [OpenPlumber] ++ t0 ++ full_scan).
  split; [rewrite !elem_of_app; do 3 right; by_compute|].
  assert (extract_title_from_content d
          = (inr (low_confidence rt), [ContentTier] ++ [OpenPlumber] ++ t0 ++ full_scan)) as ->.
  { unfold extract_title_from_content, content_body, bind at 1 2, tell, call.
    rewrite Hopen. unfold bind. rewrite Hread, Hscan. reflexivity. }
  pose proof (low_confidence_spec rt) as Hl. cbv zeta in Hl.
  destruct (List.filter _ (take 10 (spec_pool rt))) as [|x rest]; [by rewrite Hl|].
  destruct Hl as (l & -> & Hmax). by exists l.
Qed.

(** *** The result of the pipeline *)

Lemma low_confidence_title rt title status institution :
  low_confidence rt = (title, status, institution) → truthy title = true →
  status = Some LOW_CONFIDENCE.
Proof.
  pose proof (low_confidence_spec rt) as Hl. simpl in Hl.
  destruct (List.filter _ _) as [|x rest].
  - rewrite Hl. by intros [= <- <- <-].
  - destruct Hl as (l & -> & _). by intros [= <- <- <-].
Qed.

Lemma extract_title_from_content_status d title status institution trace :
  extract_title_from_content d = (inr (title, status, institution), trace) →
  truthy title = true →
  status = None ∨ status = Some LOW_CONFIDENCE.
Proof.
  unfold extract_title_from_content.
  destruct (content_body d) as [[e|r] t] eqn:E; [done|].
  intros [= -> ->] Ht.
  unfold content_body in E.
  apply bind_inr in E as (? & ? & ? & _ & E & _).
  apply bind_inr in E as (ps & ? & ? & _ & E & _).
  apply bind_inr in E as (rt & ? & ? & _ & E & _).
  destruct (scan_regions_cases rt) as [(l & t' & Hs & Hne)|[_ Hs]];
    rewrite Hs in E.
  - injection E as <- <- <- <-. by left.
  - injection E as E _. right. by eapply low_confidence_title.
Qed.

(** What the content tier raises is the [AttributeError] of line 275. *)
Lemma extract_title_from_content_raises d e trace :
  extract_title_from_content d = (inl e, trace) → e = OtherError NO_OPENERS.
Proof.
  unfold extract_title_from_content.
  destruct (content_body d) as [[e'|r] t]; by intros [= <- <-].
Qed.

(** C5.  Whatever the file, the pipeline returns a title exactly when its
    status is [metadata], [content] or [low_confidence]; and a returned
    title is not the empty string.  When the pipeline returns nothing, it
    raises the [AttributeError] of the content tier. *)
Theorem title_iff_status (d : document) :
  match (extract_title d).1 with
  | inr (title, status, _) =>
      (is_Some title ↔ status ∈ [METADATA; CONTENT; LOW_CONFIDENCE])
      ∧ title ≠ Some []
  | inl e => e = OtherError NO_OPENERS
  end.
Proof.
  unfold extract_title.
  destruct (extract_title_from_metadata d) as [[mt ms] t1].
  case_bool_decide.
  { simpl. split; [|done]. split; [by intros [? [=]] | intros Hin; exfalso; revert Hin; by_compute]. }
  case_bool_decide.
  { simpl. split; [|done]. split; [by intros [? [=]] | intros Hin; exfalso; revert Hin; by_compute]. }
  destruct (truthy mt) eqn:Hmt.
  { destruct (first_page_institution d) as [inst t2]. simpl.
    destruct mt as [[|c s]|]; try done. split; [|done].
    split; [intros _; by left | by eauto]. }
  destruct (extract_title_from_content d) as [[e|[[ct cs] inst]] t2] eqn:Ec.
  { simpl. by eapply extract_title_from_content_raises. }
  destruct (truthy ct) eqn:Hct; simpl.
  - destruct ct as [[|c s]|]; try done. split; [|done].
    split; [intros _ | by eauto].
    destruct (extract_title_from_content_status d _ _ _ _ Ec Hct) as [-> | ->].
    + simpl. by_compute.
    + simpl. by_compute.
  - split; [|done]. split; [by intros [? [=]] | intros Hin; exfalso; revert Hin; by_compute].
Qed.

End TierFacts.

(** ** The pipeline on Latin-1 documents *)

Section PipelineExamples.

(** The first end-to-end scenario of the design. *)
Example scenario1 :
  extract_title (titled_document (py "  Deep Learning for X  "))
  = (inr (Some (py "Deep Learning for X"), METADATA, None),
     [MetadataTier; OpenPlumber; ExtractText 0 Full])
  ∧ generate_paper_filename (Some (py "Deep Learning for X"))
    = py "Deep Learning for X.pdf".
Proof. vm_compute. done. Qed.

(** The third end-to-end scenario of the design. *)
Example scenario3 :
  extract_title corrupt_document = (inr (None, CORRUPTED, None), [MetadataTier]).
Proof. vm_compute. reflexivity. Qed.

Lemma metadata_title_wins_witness :
  ∃ institution trace,
    extract_title (titled_document (py "  Deep Learning for X  "))
    = (inr (Some (strip (py "  Deep Learning for X  ")), METADATA, institution), trace)
    ∧ (ContentTier ∉ trace).
Proof.
  eapply (metadata_title_wins (titled_document (py "  Deep Learning for X  ")) _
            {[ "/Title"%string := py "  Deep Learning for X  " ]} "/Title").
  - reflexivity.
  - discriminate.
  - reflexivity.
  - exists 0%nat. split; [reflexivity|]. split; [|intros; lia].
    split; [vm_compute; reflexivity|]. split; [discriminate|].
    split; [by_compute | by right].
Defined.

Example decrypt_raises_encrypted_ex :
  extract_title locked_document = (inr (None, ENCRYPTED, None), [MetadataTier]).
Proof.
  eapply (decrypt_raises_encrypted locked_document); reflexivity.
Qed.

Lemma encrypted_reported_corrupted_witness :
  extract_title password_document = (inr (None, CORRUPTED, None), [MetadataTier]).
Proof.
  eapply (encrypted_reported_corrupted password_document); reflexivity.
Defined.

Lemma low_confidence_tier_witness :
  ∃ trace,
    LowConfidenceTier ∈ trace
    ∧ match List.filter (λ l, negb (isdigit l)) (take 10 (spec_pool scanned_texts)) with
      | [] => extract_title_from_content scanned_document
              = (inr (None, Some NO_TITLE_FOUND, None), trace)
      | _ :: _ =>
          ∃ l, extract_title_from_content scanned_document
               = (inr (Some l, Some LOW_CONFIDENCE,
                       extract_institution (rt_full scanned_texts)), trace)
               ∧ earliest_max len
                   (List.filter (λ l, negb (isdigit l)) (take 10 (spec_pool scanned_texts))) l
      end.
Proof.
  apply (low_confidence_tier scanned_document
           [page_of (py "12345678" ++ [newline] ++ py "Page one")]
           scanned_texts scanned_reads).
  - reflexivity.
  - vm_compute. reflexivity.
  - vm_compute. done.
Defined.

(** The line of the low-confidence tier is returned although it is not a
    valid title. *)
Example low_confidence_unvalidated :
  (extract_title scanned_document).1 = inr (Some (py "Page one"), LOW_CONFIDENCE, None)
  ∧ validate_title (py "Page one") = false.
Proof. vm_compute. done. Qed.

(** A pool with numeric lines only: nothing is left, and the pipeline ends
    with [extraction_failed]. *)
Example numeric_pool :
  let d := {| open_reader := inl (OtherError (py "cannot open"));
              open_plumber := inr [page_of (py "12345678")] |} in
  (extract_title_from_content d).1 = inr (None, Some NO_TITLE_FOUND, None)
  ∧ (extract_title d).1 = inr (None, EXTRACTION_FAILED, None).
Proof. vm_compute. done. Qed.

End PipelineExamples.

(** * Further properties of the program *)

(** ** The sanitized name *)

Section SanitizedName.

(** X1.  A sanitized name has at most [MAX_TITLE_LENGTH] = 150 characters. *)
Theorem sanitize_filename_length (s : str) :
  (length (sanitize_filename s) ≤ Config.MAX_TITLE_LENGTH)%nat.
Proof.
  destruct (sanitize_filename_cases s) as [->|(-> & _)].
  - unfold Config.MAX_TITLE_LENGTH. simpl. lia.
  - apply truncate_length.
Qed.

(** X2.  A sanitized name contains none of the characters of
    [ILLEGAL_CHARS]: the angle brackets, the colon, the double quote, the
    slash, the backslash, the bar, the question mark and the asterisk. *)
Theorem sanitize_filename_no_illegal (s : str) (c : char) :
  c ∈ sanitize_filename s → c ∉ [60; 62; 58; 34; 47; 92; 124; 63; 42].
Proof.
  intros Hc. pose proof (sanitize_filename_legal s) as Hl.
  rewrite Forall_forall in Hl. apply Hl, is_legal_spec in Hc. exact Hc.
Qed.

Lemma sanitize_filename_normal s : normal (sanitize_filename s).
Proof.
  destruct (sanitize_filename_cases s) as [->|(-> & _)].
  - split; [by repeat constructor|]. split; [|split; [reflexivity|]].
    + vm_compute. repeat split; discriminate.
    + vm_compute. exact I.
  - apply normal_truncate, cleaned_normal.
Qed.

Lemma ws_ok_lookup s i c :
  ws_ok s → s !! i = Some c → isspace c = true →
  c = space ∧ ∀ d, s !! S i = Some d → isspace d = false.
Proof.
  revert i. induction s as [|x s IH]; intros i Hok Hi Hc; [done|].
  destruct Hok as [Hx Hs]. destruct i as [|i]; simpl in Hi.
  - injection Hi as ->. destruct (Hx Hc) as [-> Hh]. split; [done|].
    intros d Hd. destruct s; simpl in *; congruence.
  - by apply IH.
Qed.

Lemma tight_pair b s i x y :
  tight b s → s !! i = Some x → s !! S i = Some y →
  (isspace x = true → y ≠ dot) ∧ (x = dot → isspace y = false).
Proof.
  revert b s. induction i as [|i IH]; intros b s Ht Hx Hy.
  - destruct s as [|x' [|y' s]]; simpl in *; try done.
    injection Hx as ->. injection Hy as ->.
    destruct (N.eqb_spec x dot) as [->|Hne].
    + split; [by rewrite isspace_dot|]. intros _.
      destruct (N.eqb_spec y dot) as [->|Hy]; [apply isspace_dot|].
      destruct (isspace y); [by destruct Ht | done].
    + split; [|done]. intros Hsp. rewrite Hsp in Ht.
      destruct Ht as (_ & Hw & _). intros ->. by rewrite N.eqb_refl in Hw.
  - destruct s as [|z s]; [done|]. simpl in Hx, Hy.
    assert (tight (z =? dot) s) as Ht'.
    { simpl in Ht. destruct (z =? dot); [done|].
      destruct (isspace z); [by destruct Ht as (_ & _ & ?) | done]. }
    by apply (IH _ s Ht').
Qed.

(** X3.  Whitespace in a sanitized name is normalised: a whitespace
    character of the result is a plain space, is not the first character,
    and neither of its neighbours is whitespace or a period. *)
Theorem sanitize_filename_whitespace (s : str) (i : nat) (c : char) :
  sanitize_filename s !! i = Some c → isspace c = true →
  c = space ∧ i ≠ 0%nat
  ∧ ∀ d, sanitize_filename s !! S i = Some d ∨ sanitize_filename s !! pred i = Some d →
         isspace d = false ∧ d ≠ dot.
Proof.
  intros Hi Hc. destruct (sanitize_filename_normal s) as (_ & Hw & Hh & Ht).
  destruct (ws_ok_lookup _ _ _ Hw Hi Hc) as [-> Hnext].
  assert (i ≠ 0%nat) as Hi0.
  { intros ->. destruct (sanitize_filename s); simpl in *; congruence. }
  split; [done|]. split; [done|]. intros d [Hd|Hd].
  - split; [by apply Hnext|]. by apply (tight_pair _ _ _ _ _ Ht Hi Hd).
  - destruct i as [|j]; [done|]. simpl in Hd.
    destruct (isspace d) eqn:Ed.
    + destruct (ws_ok_lookup _ _ _ Hw Hd Ed) as [_ Hn]. by rewrite (Hn _ Hi) in Hc.
    + split; [done|]. intros ->.
      destruct (tight_pair _ _ _ _ _ Ht Hd Hi) as [_ Habs]. by rewrite Habs in Hc.
Qed.

End SanitizedName.

(** ** The generated file name *)

Section GeneratedName.

Lemma lstrip_by_head f s c : head (lstrip_by f s) = Some c → f c = false.
Proof.
  induction s as [|x s IH]; simpl; [done|].
  destruct (f x) eqn:E; [done|]. simpl. by intros [= <-].
Qed.

Lemma rstrip_by_head f s c : head (rstrip_by f s) = Some c → head s = Some c.
Proof.
  destruct s as [|x s]; [done|]. cbn [rstrip_by].
  by destruct (forallb f (x :: s)).
Qed.

Lemma rstrip_by_last f s c : last (rstrip_by f s) = Some c → f c = false.
Proof.
  induction s as [|x s IH]; [done|]. cbn [rstrip_by].
  destruct (forallb f (x :: s)) eqn:Hall; [done|].
  rewrite last_cons. destruct (last (rstrip_by f s)) as [y|] eqn:Hl.
  - intros [= <-]. by apply IH.
  - intros [= <-]. apply last_None, rstrip_by_nil in Hl.
    simpl in Hall. by rewrite Hl, andb_true_r in Hall.
Qed.

(** X4.  A generated name is a base followed by [.pdf]; the base has at
    most 146 characters, so the name has at most 150, and the base neither
    starts nor ends with an underscore. *)
Theorem generate_paper_filename_shape (title : option str) :
  ∃ A, generate_paper_filename title = A ++ PDF_EXT
       ∧ (length A ≤ 146)%nat
       ∧ (length (generate_paper_filename title) ≤ 150)%nat
       ∧ head A ≠ Some underscore ∧ last A ≠ Some underscore.
Proof.
  unfold generate_paper_filename. set (t := sanitize_filename _).
  set (cut := if (Config.MAX_TITLE_LENGTH - 4 <? length t)%nat
              then take (Config.MAX_TITLE_LENGTH - 4) t else t).
  exists (strip_chars [underscore] cut).
  assert (length cut ≤ 146)%nat as Hcut.
  { unfold cut. destruct (Nat.ltb_spec (Config.MAX_TITLE_LENGTH - 4) (length t)) as [Hl|Hl].
    - rewrite length_take. unfold Config.MAX_TITLE_LENGTH. lia.
    - unfold Config.MAX_TITLE_LENGTH in Hl. lia. }
  assert (length (strip_chars [underscore] cut) ≤ 146)%nat as Hlen.
  { unfold strip_chars. etrans; [apply rstrip_by_length|].
    etrans; [apply lstrip_by_length | done]. }
  split; [done|]. split; [done|]. split.
  { rewrite length_app. change (length PDF_EXT) with 4%nat. lia. }
  unfold strip_chars. split.
  - intros Hh. apply rstrip_by_head, lstrip_by_head in Hh.
    apply bool_decide_eq_false in Hh. apply Hh. by left.
  - intros Hl. apply rstrip_by_last in Hl.
    apply bool_decide_eq_false in Hl. apply Hl. by left.
Qed.

(** X5.  A missing, empty or whitespace-only title gives the file name
    "未知标题.pdf". *)
Theorem generate_paper_filename_blank (title : option str) :
  (∀ t, title = Some t → strip t = []) →
  generate_paper_filename title = UNKNOWN_TITLE ++ PDF_EXT.
Proof.
  intros Hblank. unfold generate_paper_filename.
  destruct title as [t|]; [|reflexivity].
  rewrite (Hblank t eq_refl). destruct t; reflexivity.
Qed.

Lemma generate_paper_filename_blank_witness :
  generate_paper_filename (Some [space; 9; space]) = UNKNOWN_TITLE ++ PDF_EXT.
Proof.
  apply generate_paper_filename_blank. intros t [= <-]. reflexivity.
Defined.

End GeneratedName.

(** ** Institution and title lines *)

Section TextFacts.
Context `{PyUnicode}.

Lemma take_all {A} (l : list A) : take (length l) l = l.
Proof. by rewrite take_ge. Qed.

(** X6.  The institution is the first line of the text whose stripped
    lower-case form contains an institution keyword, stripped and cut to
    100 characters; there is none only when the text is empty or no line
    has a keyword. *)
Theorem extract_institution_spec (text : str) :
  let has_kw line :=
    has_keyword Config.INSTITUTION_KEYWORDS (strip (str_lower line)) in
  match extract_institution text with
  | Some r =>
      (length r ≤ 100)%nat
      ∧ ∃ line, first_among (length (split_on newline text)) has_kw
                  (split_on newline text) line
                ∧ r = take 100 (strip line)
  | None => text = [] ∨ ∀ line, line ∈ split_on newline text → has_kw line = false
  end.
Proof.
  intros has_kw. unfold extract_institution.
  destruct text as [|c text]; [by left|]. cbn [nonempty negb].
  set (lines := split_on newline (c :: text)).
  pose proof (find_first_among has_kw lines (length lines)) as Hf.
  rewrite take_all in Hf. fold has_kw.
  change (λ line, has_keyword Config.INSTITUTION_KEYWORDS (strip (str_lower line)))
    with has_kw.
  destruct (List.find has_kw lines) as [line|].
  - split; [rewrite length_take; lia|]. by exists line.
  - right. intros line Hin. apply list_elem_of_lookup in Hin as [i Hi].
    apply (Hf i); [|done]. by eapply lookup_lt_Some.
Qed.

(** X7.  The line that [extract_title_from_text] returns is always one of
    the considered lines of the text (a stripped line of more than three
    characters); it returns nothing exactly when there is no such line. *)
Theorem extract_title_from_text_considered (text : str) :
  match extract_title_from_text text with
  | Some r => r ∈ meaningful_lines text ∧ (3 < length r)%nat
  | None => meaningful_lines text = []
  end.
Proof.
  assert (∀ r, r ∈ meaningful_lines text → r ∈ meaningful_lines text ∧ (3 < length r)%nat)
    as Hm by (intros r Hr; split; [done | by apply meaningful_lines_spec in Hr as [? _]]).
  unfold extract_title_from_text.
  destruct text as [|c text]; [done|]. cbn [nonempty negb].
  set (lines := meaningful_lines (c :: text)) in *.
  destruct lines as [|m ms] eqn:El; [done|]. cbn [nonempty negb].
  pose proof (strategy1_spec (m :: ms)) as H1.
  destruct (strategy1 (m :: ms)) as [l|].
  { apply Hm. destruct H1 as (i & Hi & _).
    apply list_elem_of_lookup_2, elem_of_filter_bool in Hi as [Hi _].
    apply elem_of_take in Hi as (j & Hj & _). by eapply list_elem_of_lookup_2. }
  pose proof (find_first_among long_text (m :: ms) 5) as H2. unfold strategy2.
  change (λ line, (15 <? length line)%nat && negb (isdigit line)) with long_text.
  destruct (List.find long_text (take 5 (m :: ms))) as [l|].
  { apply Hm. destruct H2 as (i & _ & Hi & _). by eapply list_elem_of_lookup_2. }
  apply Hm. by left.
Qed.

End TextFacts.

(** ** The tiers of the pipeline *)

Section MoreTierFacts.
Context `{PyUnicode}.

Lemma content_body_scan d pages rt t0 :
  open_plumber d = inr pages →
  read_pages 0 (take (min Config.MAX_PAGES_TO_CHECK (length pages)) pages) empty_texts
  = (inr rt, t0) →
  content_body d
  = (let '(r, t) := scan_regions rt in (r, [ContentTier] ++ [OpenPlumber] ++ t0 ++ t)).
Proof.
  intros Hopen Hread.
  unfold content_body, bind at 1 2, tell, call. rewrite Hopen.
  unfold bind. rewrite Hread. by destruct (scan_regions rt).
Qed.

Lemma valid_candidate_valid text title :
  valid_candidate text = Some title → validate_title title = true.
Proof.
  unfold valid_candidate. destruct (extract_title_from_text text) as [l|]; [|done].
  destruct (nonempty l); [|done]. simpl.
  destruct (validate_title l) eqn:E; [|done]. by intros [= <-].
Qed.

(** X8.  When the pages are read, the content tier takes the regions in
    the order content, full page, header, footer, and returns the candidate
    of the first region that has a valid one, without a status; the title
    passes [validate_title], the regions after it are not scored, and the
    low-confidence tier is not entered. *)
Theorem content_tier_priority (d : document) (pages : list page)
    (rt : region_texts) (t0 : list event) (i : nat) (r : region) (title : str) :
  open_plumber d = inr pages →
  read_pages 0 (take (min Config.MAX_PAGES_TO_CHECK (length pages)) pages) empty_texts
  = (inr rt, t0) →
  region_order !! i = Some r →
  valid_candidate (region_text rt r) = Some title →
  (∀ j r', (j < i)%nat → region_order !! j = Some r' →
           valid_candidate (region_text rt r') = None) →
  extract_title_from_content d
  = (inr (Some title, None, extract_institution (rt_full rt)),
     [ContentTier; OpenPlumber] ++ t0 ++ (ScoreRegion <$> take (S i) region_order))
  ∧ validate_title title = true.
Proof.
  intros Hopen Hread Hi Hv Hbefore.
  split; [|by eapply valid_candidate_valid].
  unfold extract_title_from_content.
  rewrite (content_body_scan d pages rt t0 Hopen Hread).
  assert (scan_regions rt
          = (inr (Some title, None, extract_institution (rt_full rt)),
             ScoreRegion <$> take (S i) region_order)) as ->; [|done].
  assert (∀ j r', (j < i)%nat → region_order !! j = Some r' →
            valid_candidate (region_text rt r') = None) as Hb by done.
  unfold scan_regions.
  destruct i as [|[|[|[|i]]]]; simpl in Hi; try done; injection Hi as <-;
    simpl in Hv.
  - by rewrite Hv.
  - pose proof (Hb 0%nat Content ltac:(lia) eq_refl) as H0. simpl in H0.
    by rewrite H0, Hv.
  - pose proof (Hb 0%nat Content ltac:(lia) eq_refl) as H0.
    pose proof (Hb 1%nat Full ltac:(lia) eq_refl) as H1. simpl in H0, H1.
    by rewrite H0, H1, Hv.
  - pose proof (Hb 0%nat Content ltac:(lia) eq_refl) as H0.
    pose proof (Hb 1%nat Full ltac:(lia) eq_refl) as H1.
    pose proof (Hb 2%nat Header ltac:(lia) eq_refl) as H2. simpl in H0, H1, H2.
    by rewrite H0, H1, H2, Hv.
Qed.

(** *** How many pages are read *)

Lemma bind_trace {A B} (m : M A) (k : A → M B) e :
  e ∈ (bind m k).2 → e ∈ m.2 ∨ ∃ a, m.1 = inr a ∧ e ∈ (k a).2.
Proof.
  unfold bind. destruct m as [[x|a] t]; simpl; [by left|].
  destruct (k a) as [r t'] eqn:Ek. simpl. rewrite elem_of_app.
  intros [?|?]; [by left|]. right. exists a. by rewrite Ek.
Qed.

Lemma read_page_trace i p acc e :
  e ∈ (read_page i p acc).2 → ∃ r, e = ExtractText i r.
Proof.
  unfold read_page. intros He.
  repeat (apply bind_trace in He as [He|(? & _ & He)];
          [apply list_elem_of_singleton in He; eauto|]).
  by apply elem_of_nil in He.
Qed.

Lemma read_pages_trace ps k acc e :
  e ∈ (read_pages k ps acc).2 →
  ∃ i r, e = ExtractText i r ∧ (k ≤ i < k + length ps)%nat.
Proof.
  revert k acc. induction ps as [|p ps IH]; intros k acc He; simpl in He.
  { by apply elem_of_nil in He. }
  apply bind_trace in He as [He|(acc' & _ & He)].
  - apply read_page_trace in He as [r ->]. exists k, r. simpl. split; [done | lia].
  - apply IH in He as (i & r & -> & Hi). exists i, r. simpl. split; [done | lia].
Qed.

Lemma scan_regions_trace rt e :
  e ∈ (scan_regions rt).2 → e ∈ full_scan.
Proof.
  unfold scan_regions, full_scan.
  destruct (valid_candidate (rt_content rt)); simpl;
    [rewrite !elem_of_cons; tauto|].
  destruct (valid_candidate (rt_full rt)); simpl;
    [rewrite !elem_of_cons; tauto|].
  destruct (valid_candidate (rt_header rt)); simpl;
    [rewrite !elem_of_cons; tauto|].
  destruct (valid_candidate (rt_footer rt)); simpl;
    rewrite !elem_of_cons; tauto.
Qed.

Lemma try_except_trace {A} (m : M A) (h : exn → A) : (try_except m h).2 = m.2.
Proof. by destruct m as [[?|?] ?]. Qed.

(** The content tier makes the calls of its body, whether it returns or
    raises. *)
Lemma extract_title_from_content_trace d :
  (extract_title_from_content d).2 = (content_body d).2.
Proof.
  unfold extract_title_from_content. by destruct (content_body d) as [[?|?] ?].
Qed.

Lemma content_trace_pages d i r :
  ExtractText i r ∈ (extract_title_from_content d).2 →
  (i < Config.MAX_PAGES_TO_CHECK)%nat
  ∧ ∃ pages, open_plumber d = inr pages ∧ (i < length pages)%nat.
Proof.
  rewrite extract_title_from_content_trace.
  unfold content_body. intros He.
  apply bind_trace in He as [He|(_ & _ & He)].
  { by apply list_elem_of_singleton in He. }
  apply bind_trace in He as [He|(pages & Hopen & He)].
  { by apply list_elem_of_singleton in He. }
  simpl in Hopen.
  apply bind_trace in He as [He|(rt & _ & He)].
  - apply read_pages_trace in He as (i' & r' & [= <- <-] & Hi).
    rewrite length_take in Hi. split; [lia|]. exists pages. split; [done | lia].
  - by apply scan_regions_trace in He; repeat (apply elem_of_cons in He as [?|He]; [done|]);
      apply elem_of_nil in He.
Qed.

Lemma first_page_trace d i r :
  ExtractText i r ∈ (first_page_institution d).2 →
  i = 0%nat ∧ ∃ p pages, open_plumber d = inr (p :: pages).
Proof.
  unfold first_page_institution. rewrite try_except_trace. intros He.
  apply bind_trace in He as [He|(pages & Hopen & He)].
  { by apply list_elem_of_singleton in He. }
  simpl in Hopen. destruct pages as [|p pages]; [by apply elem_of_nil in He|].
  apply bind_trace in He as [He|(? & _ & He)]; [|by apply elem_of_nil in He].
  apply list_elem_of_singleton in He as [= -> _]. eauto.
Qed.

Lemma metadata_trace d : (extract_title_from_metadata d).2 = [MetadataTier].
Proof. unfold extract_title_from_metadata. by rewrite try_except_trace. Qed.

(** The calls of [extract_title]: the metadata tier, then nothing, or the
    reading of the first page for the institution, or the content tier. *)
Lemma extract_title_trace d :
  (extract_title d).2 = [MetadataTier]
  ∨ (extract_title d).2 = MetadataTier :: (first_page_institution d).2
  ∨ (extract_title d).2 = MetadataTier :: (extract_title_from_content d).2.
Proof.
  unfold extract_title. pose proof (metadata_trace d) as Hm.
  destruct (extract_title_from_metadata d) as [[mt ms] t1]. simpl in Hm. subst t1.
  case_bool_decide; [by left|]. case_bool_decide; [by left|].
  destruct (truthy mt).
  - right; left. by destruct (first_page_institution d).
  - right; right. destruct (extract_title_from_content d) as [[e|[[ct cs] inst]] t2];
      [done|]. by destruct (truthy ct).
Qed.

(** X9.  The pipeline never reads text beyond the third page: every
    [extract_text] call is on a page that exists and whose index is below
    [MAX_PAGES_TO_CHECK] = 3. *)
Theorem extract_title_page_bound (d : document) (i : nat) (r : region) :
  ExtractText i r ∈ (extract_title d).2 →
  (i < Config.MAX_PAGES_TO_CHECK)%nat
  ∧ ∃ pages, open_plumber d = inr pages ∧ (i < length pages)%nat.
Proof.
  intros He. destruct (extract_title_trace d) as [Ht|[Ht|Ht]]; rewrite Ht in He.
  - by apply list_elem_of_singleton in He.
  - apply elem_of_cons in He as [?|He]; [done|].
    apply first_page_trace in He as (-> & p & pages & Hopen).
    split; [unfold Config.MAX_PAGES_TO_CHECK; lia|].
    exists (p :: pages). split; [done | simpl; lia].
  - apply elem_of_cons in He as [?|He]; [done|]. by apply (content_trace_pages d i r).
Qed.

(** *** Failures *)

(** X10.  A [PdfReadError] while the file is opened or its metadata is
    read ends the pipeline at once with (no title, [corrupted], no
    institution); no other tier is entered. *)
Theorem pdf_read_error_short_circuit (d : document) (msg : str) :
  metadata_raises d (PdfReadError msg) →
  extract_title d = (inr (None, CORRUPTED, None), [MetadataTier]).
Proof.
  intros Hr.
  assert (metadata_body d = inl (PdfReadError msg)) as Hb.
  { unfold metadata_body. destruct Hr as [-> | (reader & -> & -> & ->)]; done. }
  unfold extract_title, extract_title_from_metadata, try_except, call.
  rewrite Hb. reflexivity.
Qed.

(** X11.  Another exception of the metadata tier does not fail the file:
    its message becomes the status of that tier, which the pipeline drops
    and goes on to the content tier; unless the message is literally
    "encrypted" or "corrupted", which ends the pipeline like the real
    condition. *)
Theorem metadata_exception_falls_through (d : document) (e : exn) :
  metadata_raises d e → (∀ msg, e ≠ PdfReadError msg) →
  if bool_decide (exn_str e ∈ [ENCRYPTED; CORRUPTED])
  then extract_title d = (inr (None, exn_str e, None), [MetadataTier])
  else (extract_title d).2 = MetadataTier :: (extract_title_from_content d).2.
Proof.
  intros Hr Hne.
  assert (metadata_body d = inl e) as Hb.
  { unfold metadata_body. destruct Hr as [-> | (reader & -> & -> & ->)]; done. }
  assert (extract_title_from_metadata d = ((None, Some (exn_str e)), [MetadataTier])) as Hm.
  { unfold extract_title_from_metadata, try_except, call. rewrite Hb.
    destruct e; [by destruct (Hne msg) | done | done]. }
  unfold extract_title. rewrite Hm.
  case_bool_decide as Hin.
  - apply elem_of_cons in Hin as [Hin|Hin].
    + rewrite Hin. by rewrite bool_decide_eq_true_2.
    + apply list_elem_of_singleton in Hin. rewrite Hin.
      rewrite bool_decide_eq_false_2 by discriminate.
      by rewrite bool_decide_eq_true_2.
  - rewrite !bool_decide_eq_false_2.
    + cbn [truthy]. destruct (extract_title_from_content d) as [[e'|[[ct cs] inst]] t2];
        [done|]. by destruct (truthy ct).
    + intros [= E]. apply Hin. rewrite E. right. by left.
    + intros [= E]. apply Hin. rewrite E. by left.
Qed.

(** X12.  Whenever the pipeline returns, its status is one of
    [encrypted], [corrupted], [metadata], [content], [low_confidence] and
    [extraction_failed]: the status [no_title_found] of the content tier
    comes out as [extraction_failed], and no message of an exception of
    that tier becomes a status. *)
Theorem extract_title_status (d : document) (r : option str * str * option str) :
  (extract_title d).1 = inr r → r.1.2 ∈ PIPELINE_STATUSES.
Proof.
  unfold extract_title.
  destruct (extract_title_from_metadata d) as [[mt ms] t1].
  case_bool_decide; [intros [= <-]; by_compute|].
  case_bool_decide; [intros [= <-]; by_compute|].
  destruct (truthy mt).
  { destruct (first_page_institution d). intros [= <-]. by_compute. }
  destruct (extract_title_from_content d) as [[e|[[ct cs] inst]] t2] eqn:Ec; [done|].
  destruct (truthy ct) eqn:Hct; intros [= <-]; [|by_compute]. simpl.
  destruct (extract_title_from_content_status d _ _ _ _ Ec Hct) as [-> | ->];
    by_compute.
Qed.

(** X13.  An institution is returned only together with a title. *)
Theorem extract_title_institution (d : document)
    (title : option str) (status : str) (institution : option str) :
  (extract_title d).1 = inr (title, status, institution) →
  title = None → institution = None.
Proof.
  unfold extract_title.
  destruct (extract_title_from_metadata d) as [[mt ms] t1].
  case_bool_decide; [by intros [= <- <- <-]|].
  case_bool_decide; [by intros [= <- <- <-]|].
  destruct (truthy mt) eqn:Hmt.
  { destruct (first_page_institution d). simpl. intros [= <- <- <-] ->. done. }
  destruct (extract_title_from_content d) as [[e|[[ct cs] inst]] t2]; [done|].
  destruct (truthy ct) eqn:Hct; simpl; [|by intros [= <- <- <-]].
  intros [= <- <- <-] ->. done.
Qed.

End MoreTierFacts.

(** ** Keywords of a title *)

Section KeywordFacts.
Context `{PyUnicode}.

Lemma split_ws_aux_words cur s :
  Forall (λ c, isspace c = false) cur →
  Forall (λ w, w ≠ [] ∧ Forall (λ c, isspace c = false) w) (split_ws_aux cur s).
Proof.
  revert cur. induction s as [|c s IH]; intros cur Hcur; simpl.
  - destruct cur; [constructor|]. constructor; [done | constructor].
  - destruct (isspace c) eqn:Ec.
    + destruct cur as [|x cur']; simpl; [by apply IH|].
      constructor; [done | by apply IH].
    + apply IH. apply Forall_app. split; [done | by repeat constructor].
Qed.

Lemma split_ws_words s :
  Forall (λ w, w ≠ [] ∧ Forall (λ c, isspace c = false) w) (split_ws s).
Proof. by apply split_ws_aux_words. Qed.

Lemma join_no_space (l : list str) :
  Forall (Forall (λ c, isspace c = false)) l →
  Forall (λ c, isspace c = false) (join [underscore] l).
Proof.
  induction 1 as [|x l Hx Hl IH]; simpl; [done|].
  destruct l as [|y l]; [done|].
  apply Forall_app. split; [done|]. by constructor.
Qed.

Lemma keywords_loop_no_space result n kws :
  Forall (λ c, isspace c = false) result →
  Forall (Forall (λ c, isspace c = false)) kws →
  Forall (λ c, isspace c = false) (keywords_loop result n kws).
Proof.
  intros Hr Hk. revert result n Hr.
  induction Hk as [|w kws Hw Hk IH]; intros result n Hr; simpl; [done|].
  destruct (_ <=? _)%nat; [|done]. apply IH.
  apply Forall_app. split; [|done].
  destruct (nonempty result); [|done].
  apply Forall_app. split; [done | by repeat constructor].
Qed.

Lemma keywords_loop_length result n kws :
  (length result ≤ MAX_KEYWORDS_LENGTH)%nat →
  (result = [] ∨ length result + 1 ≤ n)%nat →
  (length (keywords_loop result n kws) ≤ MAX_KEYWORDS_LENGTH)%nat.
Proof.
  revert result n. induction kws as [|w kws IH]; intros result n Hb Hi; simpl; [done|].
  destruct (Nat.leb_spec (n + length w) MAX_KEYWORDS_LENGTH) as [Hfit|]; [|done].
  apply IH.
  - destruct result as [|c r]; simpl; [lia|].
    rewrite length_app, length_app. simpl in *. destruct Hi; [done | lia].
  - destruct result as [|c r]; simpl.
    + destruct w; [by left | right; simpl; lia].
    + right. rewrite length_app, length_app. simpl in *. destruct Hi; [done | lia].
Qed.

(** X14.  The keyword form of a title has at most [MAX_KEYWORDS_LENGTH]
    = 30 characters and contains no whitespace. *)
Theorem extract_keywords_from_title_bounds (title : option str) :
  (length (extract_keywords_from_title title) ≤ MAX_KEYWORDS_LENGTH)%nat
  ∧ Forall (λ c, isspace c = false) (extract_keywords_from_title title).
Proof.
  unfold extract_keywords_from_title.
  destruct (truthy title); cbn [negb].
  2:{ split; [unfold MAX_KEYWORDS_LENGTH; simpl; lia | by repeat constructor]. }
  set (words := split_ws (str_lower (default [] title))).
  set (keywords := List.filter _ words).
  assert (Forall (Forall (λ c, isspace c = false)) words) as Hw.
  { eapply Forall_impl; [apply split_ws_words|]. by intros w [_ ?]. }
  assert (Forall (Forall (λ c, isspace c = false)) (take 5 keywords)) as Hk.
  { apply Forall_take. unfold keywords. apply Forall_forall. intros w Hin.
    apply elem_of_filter_bool in Hin as [Hin _]. rewrite Forall_forall in Hw. auto. }
  destruct (nonempty (keywords_loop [] 0 (take 5 keywords))); cbn [negb].
  - split.
    + apply keywords_loop_length; [simpl; lia | by left].
    + by apply keywords_loop_no_space.
  - split.
    + rewrite length_take. lia.
    + apply Forall_take, join_no_space. by apply Forall_take.
Qed.

(** X15.  The keyword form is empty exactly for a title that is not empty
    but has no word: a title of whitespace only falls through the
    "Untitled" guard and through the fallback on the first words. *)
Theorem extract_keywords_from_title_empty (title : option str) :
  extract_keywords_from_title title = []
  ↔ truthy title = true ∧ split_ws (str_lower (default [] title)) = [].
Proof.
  unfold extract_keywords_from_title.
  destruct (truthy title); cbn [negb]; [|split; [done | by intros [? _]]].
  set (words := split_ws (str_lower (default [] title))).
  split.
  - intros Hr. split; [done|].
    destruct (nonempty (keywords_loop [] 0 _)) eqn:En; cbn [negb] in Hr.
    { by rewrite Hr in En. }
    pose proof (split_ws_words (str_lower (default [] title))) as Hw. fold words in Hw.
    destruct words as [|w ws]; [done|]. exfalso.
    apply Forall_cons in Hw as [[Hne _] _].
    destruct w as [|c w]; [done|].
    simpl in Hr. by destruct ws.
  - intros [_ ->]. reflexivity.
Qed.

End KeywordFacts.

(** ** The year of a text *)

Section YearFacts.
Context `{PyUnicode}.
Variable isword : char → bool.

Lemma century_group a b : century a b = true → [a; b] = py "19" ∨ [a; b] = py "20".
Proof.
  unfold century. rewrite orb_true_iff, !andb_true_iff, !N.eqb_eq.
  intros [[-> ->]|[-> ->]]; [by left | by right].
Qed.

Lemma findall_year_cons prev a s' :
  findall_year isword prev (a :: s')
  = match s' with
    | b :: c :: d :: rest =>
        if boundary isword prev (Some a) && century a b
           && uni_isdecimal c && uni_isdecimal d
           && boundary isword (Some d) (head rest)
        then [a; b] :: findall_year isword (Some d) rest
        else findall_year isword (Some a) s'
    | _ => findall_year isword (Some a) s'
    end.
Proof. by destruct s' as [|b [|c [|d rest]]]. Qed.

Lemma findall_year_groups prev s :
  Forall (λ g, g = py "19" ∨ g = py "20") (findall_year isword prev s).
Proof.
  revert prev. induction s as [s IH] using (induction_ltof1 _ (@length N)).
  unfold ltof in IH. intros prev.
  destruct s as [|a s']; [done|]. rewrite findall_year_cons.
  destruct s' as [|b [|c [|d rest]]]; try (apply IH; simpl; lia).
  destruct (_ && _) eqn:E; [|apply IH; simpl; lia].
  constructor; [|apply IH; simpl; lia].
  apply century_group. rewrite !andb_true_iff in E. tauto.
Qed.

Lemma head_insert_desc_int x l :
  head (insert_desc_int x l)
  = Some (match head l with Some y => Z.max x y | None => x end).
Proof.
  destruct l as [|y l]; [done|]. simpl.
  destruct (Z.ltb_spec x y); simpl; f_equal; lia.
Qed.

(** The first of the sorted years: 20 when some match gives it, else 19. *)
Lemma sorted_desc_head (gs : list str) g gs' :
  gs = g :: gs' → Forall (λ g, g = py "19" ∨ g = py "20") gs →
  head (sorted_desc (map py_int gs))
  = Some (if bool_decide (py "20" ∈ gs) then 20%Z else 19%Z).
Proof.
  intros -> Hg. revert g Hg. induction gs' as [|g' gs' IH]; intros g Hg.
  - apply Forall_cons in Hg as [[-> | ->] _]; reflexivity.
  - apply Forall_cons in Hg as [Hg Hrest].
    specialize (IH g' Hrest). cbn [map sorted_desc] in *.
    rewrite head_insert_desc_int, IH. f_equal.
    destruct Hg as [-> | ->].
    + change (py_int (py "19")) with 19%Z.
      rewrite (bool_decide_ext (py "20" ∈ py "19" :: g' :: gs') (py "20" ∈ g' :: gs')).
      * case_bool_decide; lia.
      * rewrite (elem_of_cons (g' :: gs')). split; [intros [?|?]; done | by right].
    + change (py_int (py "20")) with 20%Z.
      rewrite (bool_decide_eq_true_2 (py "20" ∈ py "20" :: g' :: gs')) by by left.
      case_bool_decide; lia.
Qed.

(** X16.  [extract_year] never returns a year of the text: [re.findall]
    gives the group [(19|20)] of each match, so the result is "20" when a
    year token starts with 20, "19" when there are only tokens that start
    with 19, and the current year when the text has no year token; the
    second pattern of [YEAR_PATTERNS] has no influence.  Without text the
    result is [None]. *)
Theorem extract_year_century (now : str) (text : option str) :
  extract_year isword now text
  = if truthy text
    then Some (match findall_year isword None (default [] text) with
               | [] => now
               | g :: groups =>
                   if bool_decide (py "20" ∈ g :: groups) then py "20" else py "19"
               end)
    else None.
Proof.
  unfold extract_year. destruct (truthy text); cbn [negb]; [|done]. f_equal.
  set (t := default [] text). cbn [year_loop].
  pose proof (findall_year_groups None t) as Hg.
  destruct (findall_year isword None t) as [|g gs] eqn:Ef.
  - cbn [nonempty map sorted_desc]. by destruct (nonempty (findall_paren_year t)).
  - cbn [nonempty].
    pose proof (sorted_desc_head (g :: gs) g gs eq_refl Hg) as Hh.
    destruct (sorted_desc (map py_int (g :: gs))) as [|y ys]; [done|].
    change (Some y = Some (if bool_decide (py "20" ∈ g :: gs) then 20%Z else 19%Z)) in Hh.
    apply (inj Some) in Hh. rewrite Hh. by case_bool_decide.
Qed.

End YearFacts.

Example extract_year_ex :
  extract_year latin1_isword (py "2026") (Some (py "Published in 1999, revised (2015)."))
  = Some (py "20")
  ∧ extract_year latin1_isword (py "2026") (Some (py "Vol. 12")) = Some (py "2026").
Proof. vm_compute. done. Qed.

Example extract_keywords_ex :
  extract_keywords_from_title (Some (py "A Robust Method for Federated Unlearning"))
  = py "robust_method_federated"
  ∧ extract_keywords_from_title (Some (py "   ")) = []
  ∧ extract_keywords_from_title None = py "Untitled".
Proof. vm_compute. done. Qed.

(** ** More on the tiers and on the name count *)

Section MoreDedupFacts.
Context `{PyUnicode}.

(** X22.  The count of generated names gives every file exactly one name,
    in order, for any generated names: a name generated for the [k]-th
    time after the first gets [_k] between what [os.path.splitext] takes
    as its base and its extension, and a name generated for the first time
    is kept as it is. *)
Theorem dedup_run_names (o : os) (names : list str) :
  length (dedup_run o names) = length names
  ∧ ∀ i n, names !! i = Some n →
           dedup_run o names !! i
           = Some (numbered o n (Z.of_nat (occurrences n (take i names)))).
Proof.
  split.
  - unfold dedup_run. generalize (∅ : gmap str Z).
    induction names as [|n names IH]; intros counts; simpl; [done|].
    destruct (count_title o counts n). simpl. by rewrite IH.
  - intros i n Hi. unfold dedup_run.
    assert (∀ m : str, seen ∅ m = 0%Z) as Hseen
      by (intros m; unfold seen; by rewrite lookup_empty).
    rewrite (count_titles_lookup o ∅ names i n); [|intros m; by rewrite Hseen|done].
    by rewrite Hseen.
Qed.

(** X23.  When the metadata tier gives neither a title nor a status and
    pdfplumber cannot open the file, no handler of the content tier runs:
    matching the exception against [pdfplumber.openers.PDFSyntaxError]
    raises [AttributeError], which leaves the content tier and the
    pipeline.  No status, [corrupted] or [extraction_failed], is returned,
    whatever the exception of pdfplumber was. *)
Theorem content_open_failure (d : document) (e : exn) :
  (extract_title_from_metadata d).1 = (None, None) →
  open_plumber d = inl e →
  extract_title_from_content d
  = (inl (OtherError NO_OPENERS), [ContentTier; OpenPlumber])
  ∧ extract_title d
    = (inl (OtherError NO_OPENERS), [MetadataTier; ContentTier; OpenPlumber]).
Proof.
  intros Hm Hopen.
  assert (extract_title_from_content d
          = (inl (OtherError NO_OPENERS), [ContentTier; OpenPlumber])) as Hc.
  { unfold extract_title_from_content, content_body, bind, tell, call.
    by rewrite Hopen. }
  split; [done|].
  unfold extract_title. pose proof (metadata_trace d) as Ht.
  destruct (extract_title_from_metadata d) as [[mt ms] t1]. simpl in Hm, Ht.
  injection Hm as -> ->. subst t1.
  rewrite !bool_decide_eq_false_2 by discriminate. cbn [truthy]. by rewrite Hc.
Qed.

End MoreDedupFacts.

(** ** The walk over a folder *)

Section RenameFacts.
Import Rename.
Context `{PyUnicode}.
Variable recursive : bool.
Variable custom_unknown_name : option str.
Variable o : os.

(** *** The loop that looks for a free name *)

Lemma N_of_ascii_inj a b : Ascii.N_of_ascii a = Ascii.N_of_ascii b → a = b.
Proof.
  intros E. rewrite <-(Ascii.ascii_N_embedding a), <-(Ascii.ascii_N_embedding b).
  by rewrite E.
Qed.

Lemma py_inj s t : py s = py t → s = t.
Proof.
  revert t. induction s as [|a s IH]; intros [|b t]; simpl; try done.
  intros [= E1 E2]. apply N_of_ascii_inj in E1 as ->. by rewrite (IH t E2).
Qed.

Lemma fmt_int_inj j k : fmt_int j = fmt_int k → j = k.
Proof. unfold fmt_int. intros E. apply py_inj in E. by apply (inj pretty). Qed.

Lemma collision_candidate_inj original j k :
  collision_candidate o original j = collision_candidate o original k → j = k.
Proof.
  unfold collision_candidate. destruct (splitext o original) as [name ext].
  intros E. apply app_inv_head in E. apply app_inv_head in E.
  apply app_inv_tail in E. by apply fmt_int_inj.
Qed.

Lemma collision_loop_Some fuel dir original counter cur r :
  collision_loop o fuel dir original counter cur = Some r →
  (r ∉ dir) ∧ (cur ∉ dir → r = cur).
Proof.
  revert counter cur. induction fuel as [|fuel IH]; intros counter cur; simpl.
  - case_bool_decide; [done|]. by intros [= <-].
  - case_bool_decide as Hin.
    + intros Hr. apply IH in Hr as [Hr _]. by split.
    + by intros [= <-].
Qed.

Lemma collision_loop_None fuel dir original counter cur :
  collision_loop o fuel dir original counter cur = None →
  ∀ k, (0 ≤ k < Z.of_nat fuel)%Z → collision_candidate o original (counter + k) ∈ dir.
Proof.
  revert counter cur. induction fuel as [|fuel IH]; intros counter cur Hn k Hk; [lia|].
  simpl in Hn. case_bool_decide as Hin; [|done].
  destruct fuel as [|fuel'].
  - simpl in Hn. case_bool_decide as Hc; [|done].
    assert (k = 0%Z) as -> by lia. by rewrite Z.add_0_r.
  - destruct (decide (k = 0%Z)) as [->|Hk0].
    + rewrite Z.add_0_r. simpl in Hn. by case_bool_decide.
    + replace (counter + k)%Z with ((counter + 1) + (k - 1))%Z by lia.
      apply (IH _ _ Hn). lia.
Qed.

Lemma collision_loop_enough dir n :
  ∃ r, collision_loop o (S (size dir)) dir n 1 n = Some r.
Proof.
  destruct (collision_loop o (S (size dir)) dir n 1 n) as [r|] eqn:E; [by exists r|].
  exfalso. pose proof (collision_loop_None _ _ _ _ _ E) as Hall.
  set (cands := (λ k : nat, collision_candidate o n (1 + Z.of_nat k))
                <$> seq 0 (S (size dir))).
  assert (NoDup cands) as Hnd.
  { apply NoDup_fmap_2_strong; [|apply NoDup_seq].
    intros j k _ _ E'. apply collision_candidate_inj in E'. lia. }
  assert (list_to_set cands ⊆ dir) as Hsub.
  { intros x Hx. apply elem_of_list_to_set, list_elem_of_fmap in Hx as (k & -> & Hk).
    apply elem_of_seq in Hk. apply Hall. lia. }
  apply subseteq_size in Hsub. rewrite size_list_to_set in Hsub by done.
  unfold cands in Hsub. rewrite length_fmap, length_seq in Hsub. lia.
Qed.

(** X17.  The loop over the existing names ends: after at most
    [size dir + 1] turns it has a name, that name does not exist in the
    folder, and it is the chosen name itself when that one is free. *)
Theorem collision_loop_total (dir : gset str) (new_filename : str) :
  ∃ r, collision_loop o (S (size dir)) dir new_filename 1 new_filename = Some r
       ∧ (r ∉ dir) ∧ (new_filename ∉ dir → r = new_filename).
Proof.
  destruct (collision_loop_enough dir new_filename) as (r & E).
  exists r. split; [done|]. by eapply collision_loop_Some.
Qed.

Lemma free_name_fresh dir n :
  (free_name o dir n ∉ dir) ∧ (n ∉ dir → free_name o dir n = n).
Proof.
  unfold free_name. destruct (collision_loop_enough dir n) as (r & E).
  rewrite E. by eapply collision_loop_Some.
Qed.

(** *** One file *)

Lemma extract_title_shape d t st inst :
  (extract_title d).1 = inr (t, st, inst) →
  (t = None ∨ (∃ x, t = Some x ∧ x ≠ []))
  ∧ (truthy t = true → st ∈ [METADATA; CONTENT; LOW_CONFIDENCE]).
Proof.
  unfold extract_title.
  destruct (extract_title_from_metadata d) as [[mt ms] t1].
  case_bool_decide; [intros [= <- <- <-]; split; [by left | done]|].
  case_bool_decide; [intros [= <- <- <-]; split; [by left | done]|].
  destruct (truthy mt) eqn:Hmt.
  { destruct (first_page_institution d) as [inst' t2]. intros [= <- <- <-].
    destruct mt as [[|c x]|]; try done. split; [right; by eexists | intros _; by left]. }
  destruct (extract_title_from_content d) as [[e|[[ct cs] inst']] t2] eqn:Ec; [done|].
  destruct (truthy ct) eqn:Hct; intros [= <- <- <-]; [|split; [by left | done]].
  destruct ct as [[|c x]|]; try done. split; [right; by eexists|]. intros _.
  destruct (extract_title_from_content_status d _ _ _ _ Ec Hct) as [-> | ->];
    simpl; by_compute.
Qed.

Lemma process_file_consistent directory item f st dir :
  consistent st →
  consistent (process_file custom_unknown_name o directory item f st dir).1.
Proof.
  unfold consistent, process_file. intros Hc.
  destruct (skip_pattern item); [simpl in *; lia|].
  destruct (ends_with PDF_EXT (str_lower item)); cbn [negb]; [|simpl in *; lia].
  destruct (extract_title (doc f)).1 as [e|[[t status0] inst]].
  { simpl. rewrite length_app. simpl in *. lia. }
  set (fi0 := set_extracted _ _ _).
  unfold choose_name.
  destruct (truthy t); cbn [negb].
  - destruct (count_title o (global_title_counts st) (generate_paper_filename t))
      as [counts n].
    unfold rename. case_bool_decide; [destruct (move_error f)|];
      simpl; rewrite length_app; simpl in *; lia.
  - case_bool_decide; [|case_bool_decide];
      unfold rename; (case_bool_decide; [destruct (move_error f)|]);
      simpl; rewrite length_app; simpl in *; try lia.
    all: exfalso; simpl in *; congruence.
Qed.

(** The statuses with an error message, and those that leave the file. *)
Lemma record_ok_intro (fi : file_info) :
  status fi ∈ RECORD_STATUSES →
  (status fi ∈ [py "encrypted"; py "corrupted"; py "processing_error"] →
   new_filename fi = original_filename fi ∧ extracted_title fi = None) →
  (is_Some (error_message fi)
   ↔ status fi ∈ [py "rename_failed"; py "processing_error"]) →
  (is_Some (title fi) ↔ is_Some (extracted_title fi)) →
  record_ok fi.
Proof. by unfold record_ok. Qed.

Lemma process_file_records directory item f st dir :
  Forall record_ok (excel_data st) →
  Forall record_ok
    (excel_data (process_file custom_unknown_name o directory item f st dir).1).
Proof.
  unfold process_file. intros Hr.
  destruct (skip_pattern item); [done|].
  destruct (ends_with PDF_EXT (str_lower item)); cbn [negb]; [|done].
  destruct (extract_title (doc f)).1 as [e|[[t status0] inst]] eqn:Eres.
  { simpl. apply Forall_app. split; [done|]. constructor; [|done].
    apply record_ok_intro; simpl.
    - by_compute.
    - done.
    - split; [intros _; by_compute | by eexists].
    - split; by intros [? [=]]. }
  destruct (extract_title_shape (doc f) t status0 inst Eres) as [Ht Hst].
  set (fi0 := set_extracted _ _ _).
  unfold choose_name.
  destruct (truthy t) eqn:Etr; cbn [negb].
  - destruct Ht as [->|(x & -> & Hx)]; [done|].
    specialize (Hst eq_refl).
    destruct (count_title o (global_title_counts st) (generate_paper_filename (Some x)))
      as [counts n].
    assert (status0 = METADATA ∨ status0 = CONTENT ∨ status0 = LOW_CONFIDENCE) as Hs.
    { rewrite !elem_of_cons in Hst. rewrite elem_of_nil in Hst. tauto. }
    unfold rename. simpl.
    case_bool_decide; [destruct (move_error f)|]; simpl;
      apply Forall_app; (split; [done|]); constructor; try done;
      apply record_ok_intro; simpl.
    all: try (split; intros; by eexists).
    all: destruct Hs as [-> | [-> | ->]]; simpl; try by_compute.
    all: try (intros Hin; exfalso; revert Hin; by_compute).
    all: try (split; [intros _; by_compute | by eexists]).
    all: split; [by intros [? [=]] | intros Hin; exfalso; revert Hin; by_compute].
  - assert (t = None) as ->.
    { destruct Ht as [->|(x & -> & Hx)]; [done|]. by destruct x. }
    case_bool_decide; [|case_bool_decide]; unfold rename; simpl.
    + rewrite bool_decide_eq_false_2 by (by intros []). simpl.
      apply Forall_app. split; [done|]. constructor; [|done].
      apply record_ok_intro; simpl.
      * by_compute.
      * done.
      * split; [by intros [? [=]] | intros Hin; exfalso; revert Hin; by_compute].
      * split; by intros [? [=]].
    + rewrite bool_decide_eq_false_2 by (by intros []). simpl.
      apply Forall_app. split; [done|]. constructor; [|done].
      apply record_ok_intro; simpl.
      * by_compute.
      * done.
      * split; [by intros [? [=]] | intros Hin; exfalso; revert Hin; by_compute].
      * split; by intros [? [=]].
    + case_bool_decide; [destruct (move_error f)|]; simpl;
        apply Forall_app; (split; [done|]); constructor; try done;
        apply record_ok_intro; simpl.
      all: try by_compute.
      all: try (split; by intros [? [=]]).
      all: try (intros Hin; exfalso; revert Hin; by_compute).
      all: try (split; [intros _; by_compute | by eexists]).
      all: split; [by intros [? [=]] | intros Hin; exfalso; revert Hin; by_compute].
Qed.

(** *** The whole walk *)

(** What every file keeps, every entry keeps, and so does the walk of a
    listing. *)
Lemma process_entry_preserves (P : run_state → Prop) :
  (∀ directory item f st dir,
      P st → P (process_file custom_unknown_name o directory item f st dir).1) →
  ∀ e directory st dir,
    P st → P (process_entry recursive custom_unknown_name o directory e st dir).1.
Proof.
  intros HP.
  assert (∀ r e directory st dir,
             P st → P (process_entry r custom_unknown_name o directory e st dir).1)
    as Hall; [|apply Hall].
  intros [|].
  - fix IH 1.
    intros [name path [items|]|name f|name] directory st dir Hst; simpl;
      [|done|by apply HP|done].
    generalize (entry_names items). revert st Hst.
    induction items as [|e' rest IHl]; intros st Hst dir0; simpl; [done|].
    pose proof (IH e' path st dir0 Hst) as He.
    destruct (process_entry _ _ _ path e' st dir0) as [st' dir']. by apply IHl.
  - intros [name path listing|name f|name] directory st dir Hst; simpl;
      [done|by apply HP|done].
Qed.

Lemma process_items_preserves (P : run_state → Prop) :
  (∀ directory item f st dir,
      P st → P (process_file custom_unknown_name o directory item f st dir).1) →
  ∀ items directory st dir,
    P st → P (process_items recursive custom_unknown_name o directory items st dir).1.
Proof.
  intros HP items directory. induction items as [|e rest IH]; intros st dir Hst;
    simpl; [done|].
  pose proof (process_entry_preserves P HP e directory st dir Hst) as He.
  destruct (process_entry recursive custom_unknown_name o directory e st dir)
    as [st' dir']. by apply IH.
Qed.

Lemma initial_consistent : consistent initial_state.
Proof. unfold consistent. simpl. lia. Qed.

(** X18.  After the walk of any folder tree the counters agree with each
    other and with the records, whether the pipeline returned or raised on
    a file: every file counted is either skipped or a PDF, there is one
    record per PDF, a PDF is counted at most once among renamed, encrypted
    and corrupted, and at most twice as failed. *)
Theorem walk_consistent (directory : str) (listing : option (list entry)) :
  consistent
    (process_directory recursive custom_unknown_name o directory listing initial_state).
Proof.
  unfold process_directory. destruct listing as [items|]; [|apply initial_consistent].
  apply process_items_preserves; [|apply initial_consistent].
  intros. by apply process_file_consistent.
Qed.

(** X19.  Every record that the walk writes has one of the statuses
    [encrypted], [corrupted], [default_named], [success], [low_confidence],
    [rename_failed], [processing_error] (never the initial [skipped]); a
    file that is encrypted, corrupted or on which the pipeline raised keeps
    its name and has no title; an error message is recorded exactly for a
    failed move and for a raised exception; and the key [title] is set
    exactly when a title was extracted. *)
Theorem walk_records (directory : str) (listing : option (list entry)) :
  Forall record_ok
    (excel_data
       (process_directory recursive custom_unknown_name o directory listing
          initial_state)).
Proof.
  unfold process_directory. destruct listing as [items|]; [|by constructor].
  apply (process_items_preserves (λ st, Forall record_ok (excel_data st)));
    [|by constructor].
  intros. by apply process_file_records.
Qed.

(** *** The names of a folder *)





(** X21.  A PDF for which the pipeline finds no title (and that is neither
    encrypted nor corrupted), in a run without custom prefix, is named
    "未识别文件_" + compact time stamp + ".pdf.pdf": [generate_default_filename]
    already ends its result with the extension, and line 604 adds it again.
    When that name is free and the move succeeds, the file is renamed to it
    and recorded as [default_named]. *)
Theorem default_name_double_extension (directory item : str) (f : file_input)
    (st : run_state) (dir : gset str) :
  skip_pattern item = false → ends_with PDF_EXT (str_lower item) = true →
  (extract_title (doc f)).1 = inr (None, EXTRACTION_FAILED, None) →
  truthy custom_unknown_name = false → move_error f = None →
  let n := DEFAULT_NAME_PREFIX ++ stamp_compact f ++ PDF_EXT ++ PDF_EXT in
  n ∉ dir → n ≠ item →
  let '(st', dir') := process_file custom_unknown_name o directory item f st dir in
  dir' = {[n]} ∪ (dir ∖ {[item]})
  ∧ ∃ fi, last (excel_data st') = Some fi
          ∧ new_filename fi = n ∧ status fi = py "default_named"
          ∧ original_filename fi = item.
Proof.
  intros Hskip Hpdf Hres Hcustom Hmove n Hfree Hne.
  unfold process_file. rewrite Hskip, Hpdf, Hres. cbn [negb].
  unfold choose_name. cbn [truthy negb].
  rewrite !bool_decide_eq_false_2 by discriminate.
  rewrite Hcustom. unfold generate_default_filename.
  unfold rename. cbn [new_filename set_naming].
  rewrite <-(assoc_L (++)), <-(assoc_L (++)). fold n.
  rewrite bool_decide_eq_true_2 by done.
  destruct (free_name_fresh dir n) as [_ Hsame]. rewrite (Hsame Hfree), Hmove.
  split; [done|]. eexists. split; [apply last_snoc|]. done.
Qed.

End RenameFacts.

(** ** The further properties on examples *)

Section MoreExamples.
Import Rename.

Lemma sanitize_filename_no_illegal_witness :
  97 ∉ [60; 62; 58; 34; 47; 92; 124; 63; 42].
Proof.
  apply (sanitize_filename_no_illegal (py "a:b") 97). by_compute.
Defined.

Lemma sanitize_filename_whitespace_witness :
  space = space ∧ 3%nat ≠ 0%nat
  ∧ ∀ d, sanitize_filename (py "a  .b c") !! 4%nat = Some d
         ∨ sanitize_filename (py "a  .b c") !! pred 3 = Some d →
         isspace d = false ∧ d ≠ dot.
Proof.
  apply (sanitize_filename_whitespace (py "a  .b c") 3 space); reflexivity.
Defined.

Lemma content_tier_priority_witness :
  extract_title_from_content unreadable_document
  = (inr (Some (py "A new framework for testing"), None,
          extract_institution (rt_full framework_texts)),
     [ContentTier; OpenPlumber] ++ scanned_reads
     ++ (ScoreRegion <$> take 1 region_order))
  ∧ validate_title (py "A new framework for testing") = true.
Proof.
  apply (content_tier_priority unreadable_document
           [page_of (py "A new framework for testing")] framework_texts
           scanned_reads 0 Content).
  - reflexivity.
  - vm_compute. reflexivity.
  - reflexivity.
  - vm_compute. reflexivity.
  - intros; lia.
Defined.

Lemma content_open_failure_witness :
  extract_title_from_content broken_document
  = (inl (OtherError NO_OPENERS), [ContentTier; OpenPlumber])
  ∧ extract_title broken_document
    = (inl (OtherError NO_OPENERS), [MetadataTier; ContentTier; OpenPlumber]).
Proof.
  apply (content_open_failure broken_document (PDFSyntaxError (py "No /Root object")));
    reflexivity.
Defined.

Lemma extract_title_status_witness :
  (extract_title scanned_document).1 = inr (Some (py "Page one"), LOW_CONFIDENCE, None)
  ∧ LOW_CONFIDENCE ∈ PIPELINE_STATUSES.
Proof.
  split; [vm_compute; reflexivity|].
  apply (extract_title_status scanned_document (Some (py "Page one"), LOW_CONFIDENCE, None)).
  vm_compute. reflexivity.
Defined.

Lemma extract_title_institution_witness :
  (extract_title password_document).1 = inr (None, CORRUPTED, None)
  ∧ @None str = None.
Proof.
  split; [reflexivity|].
  apply (extract_title_institution password_document None CORRUPTED None); reflexivity.
Defined.

(** A file that pdfplumber cannot open is left as it is and recorded with
    [processing_error] and the message of the [AttributeError]. *)
Example processing_error_walk :
  let '(st, dir) :=
    process_file None Posix (py "root") (py "x.pdf") (sample_input broken_document)
      initial_state {[ py "x.pdf" ]} in
  run_stats st
  = {| total_files := 1; pdf_files := 1; renamed_files := 0; failed_files := 1;
       skipped_files := 0; encrypted_files := 0; corrupted_files := 0 |}
  ∧ map new_filename (excel_data st) = [py "x.pdf"]
  ∧ map status (excel_data st) = [py "processing_error"]
  ∧ map error_message (excel_data st) = [Some (PROCESSING_ERROR_PREFIX ++ NO_OPENERS)]
  ∧ dir = {[ py "x.pdf" ]}.
Proof. vm_compute. done. Qed.

(** The sample folder: the second file of the same title gets the suffix,
    the hidden and the text file are skipped, the encrypted and the
    corrupted file keep their names. *)
Example sample_walk :
  let '(st, dir) :=
    process_items true None Posix (py "root") sample_listing initial_state
      (entry_names sample_listing) in
  run_stats st
  = {| total_files := 6; pdf_files := 4; renamed_files := 2; failed_files := 0;
       skipped_files := 2; encrypted_files := 1; corrupted_files := 1 |}
  ∧ map new_filename (excel_data st)
    = [py "Graph Neural Networks.pdf"; py "Graph Neural Networks_1.pdf";
       py "locked.pdf"; py "scan.pdf"]
  ∧ map status (excel_data st)
    = [py "success"; py "success"; py "encrypted"; py "corrupted"]
  ∧ dir = list_to_set [py "Graph Neural Networks.pdf"; py "Graph Neural Networks_1.pdf";
                       py ".hidden.pdf"; py "notes.txt"; py "locked.pdf"; py "sub";
                       py "scan.pdf"].
Proof. vm_compute. done. Qed.


Lemma default_name_double_extension_witness :
  let '(st', dir') :=
    process_file None Posix (py "root") (py "x.pdf") (sample_input empty_document)
      initial_state {[ py "x.pdf" ]} in
  dir' = {[ DEFAULT_NAME_PREFIX ++ py "20240102_030405" ++ PDF_EXT ++ PDF_EXT ]}
         ∪ ({[ py "x.pdf" ]} ∖ {[ py "x.pdf" ]})
  ∧ ∃ fi, last (excel_data st') = Some fi
          ∧ new_filename fi
            = DEFAULT_NAME_PREFIX ++ py "20240102_030405" ++ PDF_EXT ++ PDF_EXT
          ∧ status fi = py "default_named"
          ∧ original_filename fi = py "x.pdf".
Proof.
  apply (default_name_double_extension None Posix (py "root") (py "x.pdf")
           (sample_input empty_document) initial_state {[ py "x.pdf" ]});
    try reflexivity.
  - by_compute.
  - discriminate.
Defined.

Lemma extract_title_page_bound_witness :
  (0 < Config.MAX_PAGES_TO_CHECK)%nat
  ∧ ∃ pages, open_plumber scanned_document = inr pages ∧ (0 < length pages)%nat.
Proof.
  apply (extract_title_page_bound scanned_document 0 Full). by_compute.
Defined.

Lemma pdf_read_error_short_circuit_witness :
  extract_title corrupt_document = (inr (None, CORRUPTED, None), [MetadataTier]).
Proof.
  apply (pdf_read_error_short_circuit corrupt_document (py "EOF marker not found")).
  by left.
Defined.

Lemma metadata_exception_falls_through_witness :
  (extract_title unreadable_document).2
  = MetadataTier :: (extract_title_from_content unreadable_document).2.
Proof.
  apply (metadata_exception_falls_through unreadable_document
           (OtherError (py "Permission denied"))).
  - by left.
  - done.
Defined.

End MoreExamples.
